(** * MPU6500 driver (mpu6500.h / mpu6500.c): shallow embedding and properties

    The driver talks to the sensor through three services of the vendor HAL
    (blocking register write, blocking block read, delay).  Integers are
    modelled as [Z] with the C conversions written out, [float] as IEEE-754
    binary32 over [spec_float], the two global offset arrays as fields of the
    driver state, and pointer out-parameters as cells whose old content goes
    in and whose new content comes out. *)

From Stdlib Require Import String Ascii DecimalString DecimalZ DecimalPos.
From Stdlib Require Import ZArith List Lia Bool.
From Stdlib Require Import QArith Qabs Lqa.
From Stdlib Require Import Floats.SpecFloat.
Import ListNotations.
Open Scope Z_scope.

(** ** C integer conversions (32-bit ARM, two's complement) *)

Module CInt.

(** Conversion to [uint8_t]. *)
Definition to_uint8 (z : Z) : Z := z mod 256.

(** Conversion to [int16_t]; out-of-range values wrap modulo 2^16, as the
    ARM compilers define it. *)
Definition to_int16 (z : Z) : Z := (z + 32768) mod 65536 - 32768.

(** Conversion to [uint32_t]. *)
Definition to_uint32 (z : Z) : Z := z mod 4294967296.

(** Conversion to [int32_t] (wrap-around). *)
Definition to_int32 (z : Z) : Z := (z + 2147483648) mod 4294967296 - 2147483648.

Definition is_uint8 (z : Z) : Prop := 0 <= z < 256.
Definition is_int16 (z : Z) : Prop := -32768 <= z <= 32767.

(** C division of non-negative operands (quotient truncated toward zero). *)
Definition udiv (a b : Z) : Z := Z.quot a b.

End CInt.

(** ** IEEE-754 binary32, the C [float] of the target *)

Module Float32.

Definition prec : Z := 24.
Definition emax : Z := 128.

Definition float32 : Type := spec_float.

(** Integer to float conversion, [(float)n]. *)
Definition of_Z (n : Z) : float32 := binary_normalize prec emax n 0 false.

(** A float literal given as mantissa and binary exponent, m * 2^e. *)
Definition of_scaled (m e : Z) : float32 := binary_normalize prec emax m e false.

Definition div (a b : float32) : float32 := SFdiv prec emax a b.
Definition mul (a b : float32) : float32 := SFmul prec emax a b.

(** Float to integer conversion: the fractional part is discarded. *)
Definition trunc (f : float32) : Z :=
  match f with
  | S754_finite s m e =>
      let mag := if 0 <=? e then Z.shiftl (Zpos m) e
                 else Z.quot (Zpos m) (Z.pow 2 (- e)) in
      if s then - mag else mag
  | _ => 0
  end.

Definition zero : float32 := S754_zero false.
Definition one : float32 := of_Z 1.

End Float32.

Import CInt.
Import Float32.

(** ** Range and sensitivity constants (mpu6500.h) *)

Definition MPU6500_GYRO_FS_250DPS : Z := 0x00.
Definition MPU6500_GYRO_FS_500DPS : Z := 0x08.
Definition MPU6500_GYRO_FS_1000DPS : Z := 0x10.
Definition MPU6500_GYRO_FS_2000DPS : Z := 0x18.

Definition MPU6500_ACCEL_FS_2G : Z := 0x00.
Definition MPU6500_ACCEL_FS_4G : Z := 0x08.
Definition MPU6500_ACCEL_FS_8G : Z := 0x10.
Definition MPU6500_ACCEL_FS_16G : Z := 0x18.

(** 131.0f, 65.5f, 32.8f, 16.4f: the last two are not binary fractions and
    are the correctly rounded quotients 328/10 and 164/10. *)
Definition MPU6500_GYRO_SENS_250DPS : float32 := of_Z 131.
Definition MPU6500_GYRO_SENS_500DPS : float32 := of_scaled 131 (-1).
Definition MPU6500_GYRO_SENS_1000DPS : float32 := div (of_Z 328) (of_Z 10).
Definition MPU6500_GYRO_SENS_2000DPS : float32 := div (of_Z 164) (of_Z 10).

Definition MPU6500_ACCEL_SENS_2G : float32 := of_Z 16384.
Definition MPU6500_ACCEL_SENS_4G : float32 := of_Z 8192.
Definition MPU6500_ACCEL_SENS_8G : float32 := of_Z 4096.
Definition MPU6500_ACCEL_SENS_16G : float32 := of_Z 2048.

(** The two configuration macros fixed when the driver is built. *)
Class Build : Type := {
  MPU6500_DEFAULT_ACCEL_CONFIG : Z;
  MPU6500_DEFAULT_GYRO_CONFIG : Z
}.

(** The #if / #elif chains selecting the sensitivity; the final #error branch
    (the build is rejected) is rendered as NaN. *)
Definition MPU6500_GYRO_SENS {build : Build} : float32 :=
  if MPU6500_DEFAULT_GYRO_CONFIG =? MPU6500_GYRO_FS_250DPS then MPU6500_GYRO_SENS_250DPS
  else if MPU6500_DEFAULT_GYRO_CONFIG =? MPU6500_GYRO_FS_500DPS then MPU6500_GYRO_SENS_500DPS
  else if MPU6500_DEFAULT_GYRO_CONFIG =? MPU6500_GYRO_FS_1000DPS then MPU6500_GYRO_SENS_1000DPS
  else if MPU6500_DEFAULT_GYRO_CONFIG =? MPU6500_GYRO_FS_2000DPS then MPU6500_GYRO_SENS_2000DPS
  else S754_nan.

Definition MPU6500_ACCEL_SENS {build : Build} : float32 :=
  if MPU6500_DEFAULT_ACCEL_CONFIG =? MPU6500_ACCEL_FS_2G then MPU6500_ACCEL_SENS_2G
  else if MPU6500_DEFAULT_ACCEL_CONFIG =? MPU6500_ACCEL_FS_4G then MPU6500_ACCEL_SENS_4G
  else if MPU6500_DEFAULT_ACCEL_CONFIG =? MPU6500_ACCEL_FS_8G then MPU6500_ACCEL_SENS_8G
  else if MPU6500_DEFAULT_ACCEL_CONFIG =? MPU6500_ACCEL_FS_16G then MPU6500_ACCEL_SENS_16G
  else S754_nan.

(** The build of the repository: +-4g and +-500 dps. *)
Definition repository_build : Build :=
  {| MPU6500_DEFAULT_ACCEL_CONFIG := MPU6500_ACCEL_FS_4G;
     MPU6500_DEFAULT_GYRO_CONFIG := MPU6500_GYRO_FS_500DPS |}.

(** The same sources built for +-2g (sensitivity 16384.0). *)
Definition build_2g : Build :=
  {| MPU6500_DEFAULT_ACCEL_CONFIG := MPU6500_ACCEL_FS_2G;
     MPU6500_DEFAULT_GYRO_CONFIG := MPU6500_GYRO_FS_500DPS |}.

Definition MPU6500_ADDR : Z := 0x69.

(** ** Register addresses used by the driver (mpu6500.c) *)

Definition CONFIG : Z := 0x1A.
Definition GYRO_CONFIG : Z := 0x1B.
Definition ACCEL_CONFIG : Z := 0x1C.
Definition ACCEL_CONFIG_2 : Z := 0x1D.
Definition INT_PIN_CFG : Z := 0x37.
Definition INT_ENABLE : Z := 0x38.
Definition ACCEL_XOUT_H : Z := 0x3B.
Definition TEMP_OUT_H : Z := 0x41.
Definition GYRO_XOUT_H : Z := 0x43.
Definition PWR_MGMT_1 : Z := 0x6B.
Definition WHO_AM_I : Z := 0x75.

(** ** The vendor HAL, as the driver sees it *)

(** Modelled from the spec: the status type [HAL_StatusTypeDef] is declared by
    the vendor HAL reached through main.h, which is not among the sources.
    Every operation returns a success/failure status and the transport's
    status code is passed through unchanged; the enumerators are those of the
    HAL, of which the driver names [HAL_OK] and [HAL_ERROR]. *)
Inductive HAL_StatusTypeDef : Type :=
| HAL_OK
| HAL_ERROR
| HAL_BUSY
| HAL_TIMEOUT.

(** The test [status != HAL_OK]. *)
Definition failed (status : HAL_StatusTypeDef) : bool :=
  match status with
  | HAL_OK => false
  | _ => true
  end.

(** Modelled from the spec: the bus transport and delay collaborators
    (WriteRegister, ReadBlock, SleepMilliseconds), which live in the vendor
    HAL.  A transport has a state of its own; a read receives the caller's
    buffer and hands back its new content together with the status.  The
    handle, the address size and the timeout are the same constants at every
    call and are left out. *)
Class I2C_HAL (Bus : Type) : Type := {
  HAL_I2C_Mem_Write :
    Bus -> forall (DevAddress MemAddress : Z) (pData : list Z), HAL_StatusTypeDef * Bus;
  HAL_I2C_Mem_Read :
    Bus -> forall (DevAddress MemAddress : Z) (Size : nat) (pData : list Z),
    HAL_StatusTypeDef * list Z * Bus;
  HAL_Delay : Bus -> Z -> Bus
}.

(** What the driver asked of the HAL, in call order. *)
Inductive Event : Type :=
| EvWrite (reg data : Z)
| EvRead (reg : Z) (len : nat)
| EvDelay (ms : Z).

(** A three-element C array. *)
Record Vec3 (A : Type) : Type := mkVec3 { v0 : A; v1 : A; v2 : A }.
Arguments mkVec3 {A} _ _ _.
Arguments v0 {A} _.
Arguments v1 {A} _.
Arguments v2 {A} _.

Definition zero3 : Vec3 Z := mkVec3 0 0 0.

(** An automatic variable before its first assignment; the driver never reads
    one before the HAL or an assignment has filled it. *)
Definition uninit (n : nat) : list Z := repeat 0 n.

(** [(int16_t)((buffer[i] << 8) | buffer[i+1])]. *)
Definition be16 (buffer : list Z) (i : nat) : Z :=
  to_int16 (Z.lor (Z.shiftl (nth i buffer 0) 8) (nth (S i) buffer 0)).

(** ** The driver *)

Section Driver.

Context {Bus : Type} {hal : I2C_HAL Bus} {build : Build}.

(** Transport state, the log of HAL calls, and the two global arrays
    [accel_offset] and [gyro_offset] (zero at start-up). *)
Record World : Type := mkWorld {
  bus : Bus;
  trace : list Event;
  accel_offset : Vec3 Z;
  gyro_offset : Vec3 Z
}.

Definition mem_write (w : World) (reg data : Z) : HAL_StatusTypeDef * World :=
  let '(status, b) := HAL_I2C_Mem_Write (bus w) (Z.shiftl MPU6500_ADDR 1) reg [data] in
  (status, mkWorld b (trace w ++ [EvWrite reg data]) (accel_offset w) (gyro_offset w)).

Definition mem_read (w : World) (reg : Z) (len : nat) (buffer : list Z)
  : HAL_StatusTypeDef * list Z * World :=
  let '(status, buffer', b) :=
    HAL_I2C_Mem_Read (bus w) (Z.shiftl MPU6500_ADDR 1) reg len buffer in
  (status, buffer',
   mkWorld b (trace w ++ [EvRead reg len]) (accel_offset w) (gyro_offset w)).

Definition delay (w : World) (ms : Z) : World :=
  mkWorld (HAL_Delay (bus w) ms) (trace w ++ [EvDelay ms])
          (accel_offset w) (gyro_offset w).

Definition MPU6500_WriteRegister (w : World) (reg data : Z) : HAL_StatusTypeDef * World :=
  mem_write w reg data.

(** [data] is the content of the pointed byte before the call. *)
Definition MPU6500_ReadRegister (w : World) (reg : Z) (data : Z)
  : HAL_StatusTypeDef * Z * World :=
  let '(status, buffer, w1) := mem_read w reg 1 [data] in
  (status, nth 0 buffer data, w1).

Definition MPU6500_Reset (w : World) : HAL_StatusTypeDef * World :=
  MPU6500_WriteRegister w PWR_MGMT_1 0x80.

Definition MPU6500_ConfigureClock (w : World) : HAL_StatusTypeDef * World :=
  MPU6500_WriteRegister w PWR_MGMT_1 0x01.

Definition MPU6500_ConfigureAccel (w : World) : HAL_StatusTypeDef * World :=
  let '(status, w1) := MPU6500_WriteRegister w ACCEL_CONFIG MPU6500_DEFAULT_ACCEL_CONFIG in
  if failed status then (status, w1) else
  let '(status, w2) := MPU6500_WriteRegister w1 ACCEL_CONFIG_2 0x04 in
  if failed status then (status, w2) else
  (HAL_OK, w2).

Definition MPU6500_ConfigureGyro (w : World) : HAL_StatusTypeDef * World :=
  let '(status, w1) := MPU6500_WriteRegister w GYRO_CONFIG MPU6500_DEFAULT_GYRO_CONFIG in
  if failed status then (status, w1) else
  let '(status, w2) := MPU6500_WriteRegister w1 CONFIG 0x04 in
  if failed status then (status, w2) else
  (HAL_OK, w2).

Definition MPU6500_EnableTemperatureSensor (w : World) : HAL_StatusTypeDef * World :=
  let '(status, regData, w1) := MPU6500_ReadRegister w PWR_MGMT_1 0 in
  if failed status then (status, w1) else
  let regData := to_uint8 (Z.land regData (Z.lnot (Z.shiftl 1 4))) in
  MPU6500_WriteRegister w1 PWR_MGMT_1 regData.

Definition MPU6500_ConfigureInterrupts (w : World) : HAL_StatusTypeDef * World :=
  let '(status, w1) := MPU6500_WriteRegister w INT_PIN_CFG 0xB0 in
  if failed status then (status, w1) else
  (HAL_OK, w1).

Definition MPU6500_Init (w : World) : HAL_StatusTypeDef * World :=
  let '(status, w1) := MPU6500_Reset w in
  if failed status then (status, w1) else
  let w1 := delay w1 100 in
  let '(status, w2) := MPU6500_ConfigureClock w1 in
  if failed status then (status, w2) else
  let '(status, w3) := MPU6500_ConfigureAccel w2 in
  if failed status then (status, w3) else
  let '(status, w4) := MPU6500_ConfigureGyro w3 in
  if failed status then (status, w4) else
  let '(status, w5) := MPU6500_EnableTemperatureSensor w4 in
  if failed status then (status, w5) else
  let '(status, w6) := MPU6500_ConfigureInterrupts w5 in
  if failed status then (status, w6) else
  (HAL_OK, w6).

Definition MPU6500_EnableDataReadyInterrupts (w : World) : HAL_StatusTypeDef * World :=
  MPU6500_WriteRegister w INT_ENABLE 0x01.

Definition MPU6500_DisableDataReadyInterrupts (w : World) : HAL_StatusTypeDef * World :=
  MPU6500_WriteRegister w INT_ENABLE 0x00.

Definition MPU6500_ReadWhoAmI (w : World) (whoami : Z) : HAL_StatusTypeDef * Z * World :=
  MPU6500_ReadRegister w WHO_AM_I whoami.

(** [out] holds what [*x], [*y], [*z] contain before the call. *)
Definition MPU6500_ReadRawAccel (w : World) (out : Vec3 Z)
  : HAL_StatusTypeDef * Vec3 Z * World :=
  let '(status, buffer, w1) := mem_read w ACCEL_XOUT_H 6 (uninit 6) in
  if failed status then (status, out, w1) else
  (HAL_OK, mkVec3 (be16 buffer 0) (be16 buffer 2) (be16 buffer 4), w1).

Definition MPU6500_ReadRawGyro (w : World) (out : Vec3 Z)
  : HAL_StatusTypeDef * Vec3 Z * World :=
  let '(status, buffer, w1) := mem_read w GYRO_XOUT_H 6 (uninit 6) in
  if failed status then (status, out, w1) else
  (HAL_OK, mkVec3 (be16 buffer 0) (be16 buffer 2) (be16 buffer 4), w1).

Definition MPU6500_ReadAccel (w : World) (out : Vec3 float32)
  : HAL_StatusTypeDef * Vec3 float32 * World :=
  let '(status, buffer, w1) := mem_read w ACCEL_XOUT_H 6 (uninit 6) in
  if failed status then (status, out, w1) else
  let raw_x := to_int16 (be16 buffer 0 - v0 (accel_offset w1)) in
  let raw_y := to_int16 (be16 buffer 2 - v1 (accel_offset w1)) in
  let raw_z := to_int16 (be16 buffer 4 - v2 (accel_offset w1)) in
  (HAL_OK,
   mkVec3 (div (of_Z raw_x) MPU6500_ACCEL_SENS)
          (div (of_Z raw_y) MPU6500_ACCEL_SENS)
          (div (of_Z raw_z) MPU6500_ACCEL_SENS),
   w1).

Definition MPU6500_ReadGyro (w : World) (out : Vec3 float32)
  : HAL_StatusTypeDef * Vec3 float32 * World :=
  let '(status, buffer, w1) := mem_read w GYRO_XOUT_H 6 (uninit 6) in
  if failed status then (status, out, w1) else
  let raw_x := to_int16 (be16 buffer 0 - v0 (gyro_offset w1)) in
  let raw_y := to_int16 (be16 buffer 2 - v1 (gyro_offset w1)) in
  let raw_z := to_int16 (be16 buffer 4 - v2 (gyro_offset w1)) in
  (HAL_OK,
   mkVec3 (div (of_Z raw_x) MPU6500_GYRO_SENS)
          (div (of_Z raw_y) MPU6500_GYRO_SENS)
          (div (of_Z raw_z) MPU6500_GYRO_SENS),
   w1).

Definition MPU6500_ReadTemp (w : World) (temp : Z) : HAL_StatusTypeDef * Z * World :=
  let '(status, buffer, w1) := mem_read w TEMP_OUT_H 2 (uninit 2) in
  if failed status then (status, temp, w1) else
  (HAL_OK, be16 buffer 0, w1).

Definition MPU6500_Sleep (w : World) : HAL_StatusTypeDef * World :=
  let '(status, regData, w1) := MPU6500_ReadRegister w PWR_MGMT_1 0 in
  if failed status then (status, w1) else
  let regData := to_uint8 (Z.lor regData (Z.shiftl 1 6)) in
  MPU6500_WriteRegister w1 PWR_MGMT_1 regData.

Definition MPU6500_WakeUp (w : World) : HAL_StatusTypeDef * World :=
  let '(status, regData, w1) := MPU6500_ReadRegister w PWR_MGMT_1 0 in
  if failed status then (status, w1) else
  let regData := to_uint8 (Z.land regData (Z.lnot (Z.shiftl 1 6))) in
  MPU6500_WriteRegister w1 PWR_MGMT_1 regData.

(** [(int16_t)(1.0f * MPU6500_ACCEL_SENS)], the raw count of 1 g. *)
Definition one_g_raw : Z := to_int16 (trunc (mul one MPU6500_ACCEL_SENS)).

(** The sampling loop with [n] iterations left.  The sums are [int32_t];
    an addition that leaves the 32-bit range wraps around, as the target
    does. *)
Fixpoint calibration_loop (n : nat) (w : World) (accel_sum gyro_sum : Vec3 Z)
  : HAL_StatusTypeDef * World * Vec3 Z * Vec3 Z :=
  match n with
  | O => (HAL_OK, w, accel_sum, gyro_sum)
  | S n' =>
      let '(status, raw_accel, w1) := MPU6500_ReadRawAccel w zero3 in
      if failed status then (status, w1, accel_sum, gyro_sum) else
      let '(status, raw_gyro, w2) := MPU6500_ReadRawGyro w1 zero3 in
      if failed status then (status, w2, accel_sum, gyro_sum) else
      let accel_sum' :=
        mkVec3 (to_int32 (v0 accel_sum + v0 raw_accel))
               (to_int32 (v1 accel_sum + v1 raw_accel))
               (to_int32 (v2 accel_sum + (v2 raw_accel - one_g_raw))) in
      let gyro_sum' :=
        mkVec3 (to_int32 (v0 gyro_sum + v0 raw_gyro))
               (to_int32 (v1 gyro_sum + v1 raw_gyro))
               (to_int32 (v2 gyro_sum + v2 raw_gyro)) in
      calibration_loop n' (delay w2 5) accel_sum' gyro_sum'
  end.

(** [(int16_t)(sum / samples)] with [sum] an [int32_t] and [samples] a
    [uint32_t]: the usual arithmetic conversions make the division an
    unsigned 32-bit one. *)
Definition mean16 (sum samples : Z) : Z :=
  to_int16 (udiv (to_uint32 sum) samples).

(** [samples] is a [uint32_t] value. *)
Definition MPU6500_InitOffsetCalibration (w : World) (samples : Z)
  : HAL_StatusTypeDef * World :=
  if samples =? 0 then (HAL_ERROR, w) else
  let '(status, w1) := MPU6500_WakeUp w in
  if failed status then (status, w1) else
  let '(status, w2, accel_sum, gyro_sum) :=
    calibration_loop (Z.to_nat samples) w1 zero3 zero3 in
  if failed status then (status, w2) else
  (HAL_OK,
   mkWorld (bus w2) (trace w2)
           (mkVec3 (mean16 (v0 accel_sum) samples)
                   (mean16 (v1 accel_sum) samples)
                   (mean16 (v2 accel_sum) samples))
           (mkVec3 (mean16 (v0 gyro_sum) samples)
                   (mean16 (v1 gyro_sum) samples)
                   (mean16 (v2 gyro_sum) samples))).

End Driver.

Arguments World : clear implicits.

(** The driver state at start-up: empty log, both offset arrays zero. *)
Definition power_on {Bus : Type} (b : Bus) : World Bus := mkWorld b [] zero3 zero3.

(** ** Two transports to run the driver on *)

(** A scripted transport: each register access takes the next response off
    the script, a status and, for a read, the bytes put into the buffer.  An
    exhausted script times out. *)
Module Script.

Definition Resp : Type := (HAL_StatusTypeDef * list Z)%type.

Definition write (b : list Resp) (dev reg : Z) (pData : list Z)
  : HAL_StatusTypeDef * list Resp :=
  match b with
  | [] => (HAL_TIMEOUT, [])
  | (status, _) :: rest => (status, rest)
  end.

Definition read (b : list Resp) (dev reg : Z) (Size : nat) (pData : list Z)
  : HAL_StatusTypeDef * list Z * list Resp :=
  match b with
  | [] => (HAL_TIMEOUT, pData, [])
  | (status, data) :: rest => (status, data, rest)
  end.

Definition pause (b : list Resp) (ms : Z) : list Resp := b.

#[global] Instance hal : I2C_HAL (list Resp) :=
  {| HAL_I2C_Mem_Write := write; HAL_I2C_Mem_Read := read; HAL_Delay := pause |}.

(** A successful response carrying [data]. *)
Definition ok (data : list Z) : Resp := (HAL_OK, data).

End Script.

(** A device that is a plain file of byte registers and never fails. *)
Module RegFile.

Definition store (b : Z -> Z) (reg v : Z) : Z -> Z :=
  fun r => if r =? reg then v else b r.

Definition write (b : Z -> Z) (dev reg : Z) (pData : list Z)
  : HAL_StatusTypeDef * (Z -> Z) :=
  (HAL_OK, store b reg (nth 0 pData 0)).

Definition read (b : Z -> Z) (dev reg : Z) (Size : nat) (pData : list Z)
  : HAL_StatusTypeDef * list Z * (Z -> Z) :=
  (HAL_OK, map (fun i => b (reg + Z.of_nat i)) (seq 0 Size), b).

Definition pause (b : Z -> Z) (ms : Z) : Z -> Z := b.

#[global] Instance hal : I2C_HAL (Z -> Z) :=
  {| HAL_I2C_Mem_Write := write; HAL_I2C_Mem_Read := read; HAL_Delay := pause |}.

End RegFile.

(** ** Reference definitions, in the words of the specification *)

(** The signed 16-bit value of a big-endian byte pair: first byte high,
    second byte low. *)
Definition be_int16_spec (hi lo : Z) : Z :=
  let u := 256 * hi + lo in
  if u <? 32768 then u else u - 65536.

(** The register accesses in a log (delays are not bus traffic). *)
Definition register_accesses (tr : list Event) : list Event :=
  filter (fun e => match e with EvDelay _ => false | _ => true end) tr.

(** The register accesses of step [k] of the initialization sequence, where
    [v] is the byte the power-management register read returns in step 5. *)
Definition init_step {build : Build} (k : nat) (v : Z) : list Event :=
  match k with
  | 1%nat => [EvWrite PWR_MGMT_1 0x80]
  | 2%nat => [EvWrite PWR_MGMT_1 0x01]
  | 3%nat => [EvWrite ACCEL_CONFIG MPU6500_DEFAULT_ACCEL_CONFIG; EvWrite ACCEL_CONFIG_2 0x04]
  | 4%nat => [EvWrite GYRO_CONFIG MPU6500_DEFAULT_GYRO_CONFIG; EvWrite CONFIG 0x04]
  | 5%nat => [EvRead PWR_MGMT_1 1; EvWrite PWR_MGMT_1 (to_uint8 (Z.land v (Z.lnot 16)))]
  | 6%nat => [EvWrite INT_PIN_CFG 0xB0]
  | _ => []
  end.

(** All register accesses of steps 1..k. *)
Definition init_steps {build : Build} (k : nat) (v : Z) : list Event :=
  concat (map (fun i => init_step i v) (seq 1 k)).

(** The HAL calls of the sampling loop when [oks] raw reads succeed and the
    next one fails: accelerometer read, gyroscope read and a 5 ms delay per
    completed iteration, then the reads of the interrupted one. *)
Fixpoint sampling_prefix (oks : nat) : list Event :=
  match oks with
  | O => [EvRead ACCEL_XOUT_H 6]
  | S O => [EvRead ACCEL_XOUT_H 6; EvRead GYRO_XOUT_H 6]
  | S (S k) =>
      EvRead ACCEL_XOUT_H 6 :: EvRead GYRO_XOUT_H 6 :: EvDelay 5 :: sampling_prefix k
  end.

(** The two offset arrays of [w'] are those of [w]. *)
Definition same_offsets {Bus : Type} (w w' : World Bus) : Prop :=
  accel_offset w' = accel_offset w /\ gyro_offset w' = gyro_offset w.

(** The integer mean of a list of samples, [sum / count] as C divides. *)
Definition mean_spec (samples : list Z) : Z :=
  Z.quot (fold_right Z.add 0 samples) (Z.of_nat (length samples)).

(** ** The remaining helpers of mpu6500.c *)

Definition PWR_MGMT_2 : Z := 0x6C.

Section DriverHelpers.

Context {Bus : Type} {hal : I2C_HAL Bus}.

Definition MPU6500_DisableGyro (w : World Bus) : HAL_StatusTypeDef * World Bus :=
  MPU6500_WriteRegister w PWR_MGMT_2 0x07.

Definition MPU6500_DisableTemperatureSensor (w : World Bus)
  : HAL_StatusTypeDef * World Bus :=
  let '(status, regData, w1) := MPU6500_ReadRegister w PWR_MGMT_1 0 in
  if failed status then (status, w1) else
  let regData := to_uint8 (Z.lor regData (Z.shiftl 1 4)) in
  MPU6500_WriteRegister w1 PWR_MGMT_1 regData.

(** The outcome of a read-modify-write whose read left the transport in
    state [b]: one write of [d] to the power-management register, whose
    status is returned. *)
Definition written_back (w : World Bus) (b : Bus) (d : Z) : HAL_StatusTypeDef * World Bus :=
  (fst (HAL_I2C_Mem_Write b (Z.shiftl MPU6500_ADDR 1) PWR_MGMT_1 [d]),
   mkWorld (snd (HAL_I2C_Mem_Write b (Z.shiftl MPU6500_ADDR 1) PWR_MGMT_1 [d]))
           (trace w ++ [EvRead PWR_MGMT_1 1; EvWrite PWR_MGMT_1 d])
           (accel_offset w) (gyro_offset w)).

End DriverHelpers.

(** ** The diagnostic dump *)

Definition newline_char : ascii := ascii_of_nat 10.

(** What [printf] writes for [%d]: the decimal digits, after a minus sign
    for a negative number. *)
Definition print_int (z : Z) : string := NilZero.string_of_int (Z.to_int z).

(** [printf("<label>%d\n", z)] followed by the text [rest]. *)
Definition print_line (label : string) (z : Z) (rest : string) : string :=
  (label ++ print_int z ++ String newline_char rest)%string.

(** [text] contains no character [c]. *)
Fixpoint free_of (c : ascii) (text : string) : bool :=
  match text with
  | EmptyString => true
  | String a text' => negb (Ascii.eqb a c) && free_of c text'
  end.

(** The status returned and the text written to the standard output by the
    eight [printf] calls, in order. *)
Definition MPU6500_PrintOffsets {Bus : Type} (w : World Bus) : HAL_StatusTypeDef * string :=
  (HAL_OK,
   ("Accelerometer Offsets:" ++ String newline_char
      (print_line "X: " (v0 (accel_offset w))
      (print_line "Y: " (v1 (accel_offset w))
      (print_line "Z: " (v2 (accel_offset w))
      ("Gyroscope Offsets:" ++ String newline_char
      (print_line "X: " (v0 (gyro_offset w))
      (print_line "Y: " (v1 (gyro_offset w))
      (print_line "Z: " (v2 (gyro_offset w)) EmptyString))))))))%string).

(** ** Vocabulary of the further properties *)

(** All HAL calls of a complete initialization, in order; [v] is the byte the
    power-management register read returns. *)
Definition init_events {build : Build} (v : Z) : list Event :=
  [EvWrite PWR_MGMT_1 0x80; EvDelay 100; EvWrite PWR_MGMT_1 0x01;
   EvWrite ACCEL_CONFIG MPU6500_DEFAULT_ACCEL_CONFIG; EvWrite ACCEL_CONFIG_2 0x04;
   EvWrite GYRO_CONFIG MPU6500_DEFAULT_GYRO_CONFIG; EvWrite CONFIG 0x04;
   EvRead PWR_MGMT_1 1; EvWrite PWR_MGMT_1 (to_uint8 (Z.land v (Z.lnot 16)));
   EvWrite INT_PIN_CFG 0xB0].


(** The register an event addresses, if it is a bus access. *)
Definition event_register (e : Event) : option Z :=
  match e with
  | EvWrite reg _ => Some reg
  | EvRead reg _ => Some reg
  | EvDelay _ => None
  end.

(** The HAL calls of [n] completed sampling iterations. *)
Definition sampling_events (n : nat) : list Event :=
  concat (repeat [EvRead ACCEL_XOUT_H 6; EvRead GYRO_XOUT_H 6; EvDelay 5] n).

(** The script answering [n] sampling iterations with the given buffers. *)
Definition sample_script (pairs : list (list Z * list Z)) : list Script.Resp :=
  concat (map (fun p => [Script.ok (fst p); Script.ok (snd p)]) pairs).

(** The exact (unbounded) sum of one decoded axis over a list of buffers. *)
Definition axis_sum (i : nat) (buffers : list (list Z)) : Z :=
  fold_right (fun buffer acc => be16 buffer i + acc) 0 buffers.

(** The six bytes a block read of the register file returns from [reg] on. *)
Definition sensor_block (b : Z -> Z) (reg : Z) : list Z :=
  map (fun i => b (reg + Z.of_nat i)) (seq 0 6).

(** The builds the preprocessor accepts: one of the four range codes each. *)
Definition valid_build (b : Build) : Prop :=
  In (@MPU6500_DEFAULT_ACCEL_CONFIG b)
     [MPU6500_ACCEL_FS_2G; MPU6500_ACCEL_FS_4G; MPU6500_ACCEL_FS_8G; MPU6500_ACCEL_FS_16G] /\
  In (@MPU6500_DEFAULT_GYRO_CONFIG b)
     [MPU6500_GYRO_FS_250DPS; MPU6500_GYRO_FS_500DPS; MPU6500_GYRO_FS_1000DPS;
      MPU6500_GYRO_FS_2000DPS].

(** All six offsets are [int16_t] values. *)
Definition offsets_int16 {Bus : Type} (w : World Bus) : Prop :=
  (is_int16 (v0 (accel_offset w)) /\ is_int16 (v1 (accel_offset w)) /\
   is_int16 (v2 (accel_offset w))) /\
  (is_int16 (v0 (gyro_offset w)) /\ is_int16 (v1 (gyro_offset w)) /\
   is_int16 (v2 (gyro_offset w))).

(** The rational value of a finite float, sign * mantissa * 2^exponent; zero
    for the other classes. *)
Definition value (f : float32) : Q :=
  match f with
  | S754_finite s m e => (inject_Z (if s then Zneg m else Zpos m) * Qpower 2 e)%Q
  | _ => 0%Q
  end.

Definition is_finite (f : float32) : bool :=
  match f with
  | S754_finite _ _ _ => true
  | S754_zero _ => true
  | _ => false
  end.

(** [f] holds on every [k]-bit extension of the bit prefix [acc]. *)
Fixpoint forall_bits (k : nat) (f : Z -> bool) (acc : Z) : bool :=
  match k with
  | O => f acc
  | S k' => forall_bits k' f (2 * acc) && forall_bits k' f (2 * acc + 1)
  end.

(** The check behind the conversion accuracy: [(float)d / sens] is finite and
    its value times the sensitivity is within 2^-24 of [d], relatively. *)
Definition conversion_check (sens : float32) (d : Z) : bool :=
  let f := div (of_Z d) sens in
  is_finite f &&
  Qle_bool (Qabs (value f * value sens - inject_Z d) * inject_Z 16777216)
           (Qabs (inject_Z d)).

(** The same with no error at all. *)
Definition conversion_exact_check (sens : float32) (d : Z) : bool :=
  let f := div (of_Z d) sens in
  is_finite f && Qeq_bool (value f * value sens) (inject_Z d).

(** ** Integer and bit facts *)

Lemma to_uint8_small (z : Z) : is_uint8 z -> to_uint8 z = z.
Proof. unfold is_uint8, to_uint8; intros Hz; apply Z.mod_small; lia. Qed.

Lemma to_int16_small (z : Z) : is_int16 z -> to_int16 z = z.
Proof.
  unfold is_int16, to_int16; intros Hz.
  rewrite Z.mod_small by lia. lia.
Qed.

Lemma to_int16_range (z : Z) : is_int16 (to_int16 z).
Proof.
  unfold is_int16, to_int16.
  pose proof (Z.mod_pos_bound (z + 32768) 65536 ltac:(lia)). lia.
Qed.

(** A property checked on all 256 byte values holds of every byte. *)
Lemma uint8_cases (P : Z -> bool) :
  forallb (fun n => P (Z.of_nat n)) (seq 0 256) = true ->
  forall v, is_uint8 v -> P v = true.
Proof.
  intros Hall v [Hlo Hhi].
  rewrite forallb_forall in Hall.
  specialize (Hall (Z.to_nat v)).
  rewrite Z2Nat.id in Hall by assumption.
  apply Hall, in_seq. lia.
Qed.

Lemma byte_pair_disjoint (hi lo : Z) :
  is_uint8 lo -> Z.land (Z.shiftl hi 8) lo = 0.
Proof.
  intros [Hlo Hhi].
  apply Z.bits_inj'; intros n Hn.
  rewrite Z.land_spec, Z.bits_0.
  destruct (Z.ltb_spec n 8) as [Hlt | Hge].
  - rewrite Z.shiftl_spec_low by assumption. reflexivity.
  - replace (Z.testbit lo n) with false; [apply andb_false_r |].
    symmetry. destruct (Z.eq_dec lo 0) as [-> | Hnz]; [apply Z.bits_0 |].
    apply Z.bits_above_log2; [assumption |].
    apply Z.log2_lt_pow2; [lia |].
    apply Z.lt_le_trans with (2 ^ 8); [exact Hhi |].
    apply Z.pow_le_mono_r; lia.
Qed.

Lemma byte_pair_value (hi lo : Z) :
  is_uint8 lo -> Z.lor (Z.shiftl hi 8) lo = 256 * hi + lo.
Proof.
  intros Hlo.
  rewrite <- Z.lxor_lor by (apply byte_pair_disjoint; assumption).
  rewrite <- Z.add_nocarry_lxor by (apply byte_pair_disjoint; assumption).
  rewrite Z.shiftl_mul_pow2 by lia. change (2 ^ 8) with 256. lia.
Qed.

(** The driver's byte combination is the signed big-endian value. *)
Lemma be16_pair (hi lo : Z) :
  is_uint8 hi -> is_uint8 lo ->
  to_int16 (Z.lor (Z.shiftl hi 8) lo) = be_int16_spec hi lo.
Proof.
  intros Hhi Hlo. rewrite byte_pair_value by assumption.
  unfold is_uint8 in *. unfold be_int16_spec, to_int16. cbv zeta.
  destruct (Z.ltb_spec (256 * hi + lo) 32768) as [Hlt | Hge].
  - rewrite Z.mod_small by lia. lia.
  - replace (256 * hi + lo + 32768) with ((256 * hi + lo - 32768) + 1 * 65536) by lia.
    rewrite Z.mod_add by lia. rewrite Z.mod_small by lia. lia.
Qed.

Lemma be_int16_spec_range (hi lo : Z) :
  is_uint8 hi -> is_uint8 lo -> is_int16 (be_int16_spec hi lo).
Proof.
  intros Hhi Hlo. rewrite <- be16_pair by assumption. apply to_int16_range.
Qed.

Lemma failed_true (status : HAL_StatusTypeDef) : status <> HAL_OK -> failed status = true.
Proof. destruct status; simpl; congruence. Qed.

Lemma register_accesses_app (t1 t2 : list Event) :
  register_accesses (t1 ++ t2) = register_accesses t1 ++ register_accesses t2.
Proof. unfold register_accesses. apply filter_app. Qed.

(** ** Properties holding on every transport *)

Section AnyTransport.

Context {Bus : Type} {hal : I2C_HAL Bus} {build : Build}.

Implicit Type w : World Bus.

(** C9: whatever byte and status the transport produces for the identity
    register, MPU6500_ReadWhoAmI stores that byte unmodified and returns
    that status unchanged, after exactly one single-byte read. *)
Theorem ReadWhoAmI_verbatim w (whoami v : Z) (status : HAL_StatusTypeDef) (b : Bus) :
  HAL_I2C_Mem_Read (bus w) (Z.shiftl MPU6500_ADDR 1) WHO_AM_I 1 [whoami] = (status, [v], b) ->
  MPU6500_ReadWhoAmI w whoami =
    (status, v,
     mkWorld b (trace w ++ [EvRead WHO_AM_I 1]) (accel_offset w) (gyro_offset w)).
Proof.
  intros Hread.
  unfold MPU6500_ReadWhoAmI, MPU6500_ReadRegister, mem_read.
  rewrite Hread. reflexivity.
Qed.

(** C8: for every two bytes the transport returns for the temperature base
    register, MPU6500_ReadTemp stores their signed 16-bit big-endian
    combination, untouched by any offset or sensitivity (the stored value
    does not depend on the offsets or on the build). *)
Theorem ReadTemp_big_endian w (temp hi lo : Z) (b : Bus) :
  is_uint8 hi -> is_uint8 lo ->
  HAL_I2C_Mem_Read (bus w) (Z.shiftl MPU6500_ADDR 1) TEMP_OUT_H 2 (uninit 2) = (HAL_OK, [hi; lo], b) ->
  MPU6500_ReadTemp w temp =
    (HAL_OK, be_int16_spec hi lo,
     mkWorld b (trace w ++ [EvRead TEMP_OUT_H 2]) (accel_offset w) (gyro_offset w)).
Proof.
  intros Hhi Hlo Hread.
  unfold MPU6500_ReadTemp, mem_read.
  rewrite Hread. cbn [failed].
  unfold be16. cbn [nth].
  rewrite be16_pair by assumption. reflexivity.
Qed.

(** C10: when the block read fails, each read operation returns the
    transport's status and hands back every output location with the
    content it had before the call. *)
Theorem failed_read_leaves_outputs w (fout : Vec3 float32) (iout : Vec3 Z) (temp : Z) :
  let status_of reg n :=
    fst (fst (HAL_I2C_Mem_Read (bus w) (Z.shiftl MPU6500_ADDR 1) reg n (uninit n))) in
  (status_of ACCEL_XOUT_H 6%nat <> HAL_OK ->
     fst (MPU6500_ReadAccel w fout) = (status_of ACCEL_XOUT_H 6%nat, fout) /\
     fst (MPU6500_ReadRawAccel w iout) = (status_of ACCEL_XOUT_H 6%nat, iout)) /\
  (status_of GYRO_XOUT_H 6%nat <> HAL_OK ->
     fst (MPU6500_ReadGyro w fout) = (status_of GYRO_XOUT_H 6%nat, fout) /\
     fst (MPU6500_ReadRawGyro w iout) = (status_of GYRO_XOUT_H 6%nat, iout)) /\
  (status_of TEMP_OUT_H 2%nat <> HAL_OK ->
     fst (MPU6500_ReadTemp w temp) = (status_of TEMP_OUT_H 2%nat, temp)).
Proof.
  cbv zeta.
  unfold MPU6500_ReadAccel, MPU6500_ReadRawAccel, MPU6500_ReadGyro,
    MPU6500_ReadRawGyro, MPU6500_ReadTemp, mem_read.
  split; [| split]; intros Hfail;
    match type of Hfail with
    | context [HAL_I2C_Mem_Read ?b ?d ?r ?n ?buf] =>
        destruct (HAL_I2C_Mem_Read b d r n buf) as [[status buffer] b'] eqn:Hread
    end;
    cbn [fst snd] in *; rewrite (failed_true _ Hfail); try split; reflexivity.
Qed.

(** C3 (as amended): with sampleCount = 0 the calibration returns HAL_ERROR
    and changes nothing: no HAL call is logged, the transport state and all
    six offsets are as before. *)
Theorem calibration_zero_samples w :
  MPU6500_InitOffsetCalibration w 0 = (HAL_ERROR, w).
Proof. reflexivity. Qed.

(** The interrupt-enable operations issue one write and nothing else. *)
Lemma EnableDataReadyInterrupts_unfold w :
  MPU6500_EnableDataReadyInterrupts w =
    (fst (HAL_I2C_Mem_Write (bus w) (Z.shiftl MPU6500_ADDR 1) INT_ENABLE [1]),
     mkWorld (snd (HAL_I2C_Mem_Write (bus w) (Z.shiftl MPU6500_ADDR 1) INT_ENABLE [1]))
             (trace w ++ [EvWrite INT_ENABLE 1]) (accel_offset w) (gyro_offset w)).
Proof.
  unfold MPU6500_EnableDataReadyInterrupts, MPU6500_WriteRegister, mem_write.
  destruct (HAL_I2C_Mem_Write _ _ _ _); reflexivity.
Qed.

Lemma DisableDataReadyInterrupts_unfold w :
  MPU6500_DisableDataReadyInterrupts w =
    (fst (HAL_I2C_Mem_Write (bus w) (Z.shiftl MPU6500_ADDR 1) INT_ENABLE [0]),
     mkWorld (snd (HAL_I2C_Mem_Write (bus w) (Z.shiftl MPU6500_ADDR 1) INT_ENABLE [0]))
             (trace w ++ [EvWrite INT_ENABLE 0]) (accel_offset w) (gyro_offset w)).
Proof.
  unfold MPU6500_DisableDataReadyInterrupts, MPU6500_WriteRegister, mem_write.
  destruct (HAL_I2C_Mem_Write _ _ _ _); reflexivity.
Qed.

(** No HAL call touches the offset arrays. *)
Lemma mem_write_offsets w (reg v : Z) : same_offsets w (snd (mem_write w reg v)).
Proof.
  unfold mem_write. destruct (HAL_I2C_Mem_Write _ _ _ _); split; reflexivity.
Qed.

Lemma mem_read_offsets w (reg : Z) (n : nat) (buffer : list Z) :
  same_offsets w (snd (mem_read w reg n buffer)).
Proof.
  unfold mem_read. destruct (HAL_I2C_Mem_Read _ _ _ _ _) as [[? ?] ?]; split; reflexivity.
Qed.

Lemma same_offsets_trans w1 w2 w3 :
  same_offsets w1 w2 -> same_offsets w2 w3 -> same_offsets w1 w3.
Proof. unfold same_offsets. intros [? ?] [? ?]. split; congruence. Qed.

Lemma WakeUp_offsets w : same_offsets w (snd (MPU6500_WakeUp w)).
Proof.
  unfold MPU6500_WakeUp, MPU6500_ReadRegister, MPU6500_WriteRegister.
  pose proof (mem_read_offsets w PWR_MGMT_1 1 [0]) as Hr.
  destruct (mem_read w PWR_MGMT_1 1 [0]) as [[status buffer] w1].
  cbn [snd] in Hr. destruct (failed status); [exact Hr |].
  eapply same_offsets_trans; [exact Hr | apply mem_write_offsets].
Qed.

Lemma ReadRawAccel_offsets w (out : Vec3 Z) :
  same_offsets w (snd (MPU6500_ReadRawAccel w out)).
Proof.
  unfold MPU6500_ReadRawAccel.
  pose proof (mem_read_offsets w ACCEL_XOUT_H 6 (uninit 6)) as Hr.
  destruct (mem_read w ACCEL_XOUT_H 6 (uninit 6)) as [[status buffer] w1].
  destruct (failed status); exact Hr.
Qed.

Lemma ReadRawGyro_offsets w (out : Vec3 Z) :
  same_offsets w (snd (MPU6500_ReadRawGyro w out)).
Proof.
  unfold MPU6500_ReadRawGyro.
  pose proof (mem_read_offsets w GYRO_XOUT_H 6 (uninit 6)) as Hr.
  destruct (mem_read w GYRO_XOUT_H 6 (uninit 6)) as [[status buffer] w1].
  destruct (failed status); exact Hr.
Qed.

Lemma calibration_loop_offsets (n : nat) :
  forall w (accel_sum gyro_sum : Vec3 Z),
    same_offsets w (snd (fst (fst (calibration_loop n w accel_sum gyro_sum)))).
Proof.
  induction n as [| n IH]; intros w accel_sum gyro_sum.
  - split; reflexivity.
  - cbn [calibration_loop].
    pose proof (ReadRawAccel_offsets w zero3) as Ha.
    destruct (MPU6500_ReadRawAccel w zero3) as [[status raw_accel] w1].
    cbn [snd] in Ha. destruct (failed status); [exact Ha |].
    pose proof (ReadRawGyro_offsets w1 zero3) as Hg.
    destruct (MPU6500_ReadRawGyro w1 zero3) as [[status' raw_gyro] w2].
    cbn [snd] in Hg. destruct (failed status').
    + eapply same_offsets_trans; eassumption.
    + eapply same_offsets_trans; [exact Ha |].
      eapply same_offsets_trans; [exact Hg |].
      eapply same_offsets_trans; [| apply IH].
      split; reflexivity.
Qed.

(** X21: on every transport, a calibration that does not return HAL_OK
    leaves all six offsets as they were. *)
Lemma calibration_failure_keeps_offsets w (samples : Z) :
  fst (MPU6500_InitOffsetCalibration w samples) <> HAL_OK ->
  same_offsets w (snd (MPU6500_InitOffsetCalibration w samples)).
Proof.
  unfold MPU6500_InitOffsetCalibration.
  destruct (samples =? 0); [intros _; split; reflexivity |].
  pose proof (WakeUp_offsets w) as Hw.
  destruct (MPU6500_WakeUp w) as [status w1]. cbn [snd] in Hw.
  destruct (failed status) eqn:Hst; [intros _; exact Hw |].
  pose proof (calibration_loop_offsets (Z.to_nat samples) w1 zero3 zero3) as Hl.
  destruct (calibration_loop (Z.to_nat samples) w1 zero3 zero3)
    as [[[status' w2] accel_sum] gyro_sum].
  cbn [fst snd] in Hl.
  destruct (failed status') eqn:Hst'.
  - intros _. eapply same_offsets_trans; eassumption.
  - cbn [fst]. congruence.
Qed.

End AnyTransport.

(** ** Properties of the register contents, on the register-file device *)

Section OnRegisterFile.

Implicit Type w : World (Z -> Z).

Lemma regfile_Sleep w :
  MPU6500_Sleep w =
    (HAL_OK,
     mkWorld (RegFile.store (bus w) PWR_MGMT_1
                (to_uint8 (Z.lor (bus w PWR_MGMT_1) 64)))
             ((trace w ++ [EvRead PWR_MGMT_1 1]) ++
              [EvWrite PWR_MGMT_1 (to_uint8 (Z.lor (bus w PWR_MGMT_1) 64))])
             (accel_offset w) (gyro_offset w)).
Proof. reflexivity. Qed.

Lemma regfile_WakeUp w :
  MPU6500_WakeUp w =
    (HAL_OK,
     mkWorld (RegFile.store (bus w) PWR_MGMT_1
                (to_uint8 (Z.land (bus w PWR_MGMT_1) (Z.lnot 64))))
             ((trace w ++ [EvRead PWR_MGMT_1 1]) ++
              [EvWrite PWR_MGMT_1 (to_uint8 (Z.land (bus w PWR_MGMT_1) (Z.lnot 64)))])
             (accel_offset w) (gyro_offset w)).
Proof. reflexivity. Qed.

Lemma store_same (b : Z -> Z) (reg v : Z) : RegFile.store b reg v reg = v.
Proof. unfold RegFile.store. rewrite Z.eqb_refl. reflexivity. Qed.

Lemma set_sleep_twice (v : Z) :
  is_uint8 v ->
  to_uint8 (Z.lor (to_uint8 (Z.lor v 64)) 64) = to_uint8 (Z.lor v 64).
Proof.
  intros Hv.
  apply Z.eqb_eq.
  apply (uint8_cases
           (fun v => to_uint8 (Z.lor (to_uint8 (Z.lor v 64)) 64) =? to_uint8 (Z.lor v 64)));
    [vm_compute; reflexivity | assumption].
Qed.

Lemma set_then_clear_sleep (v : Z) :
  is_uint8 v ->
  to_uint8 (Z.land (to_uint8 (Z.lor v 64)) (Z.lnot 64)) = Z.land v (Z.lnot 64).
Proof.
  intros Hv.
  apply Z.eqb_eq.
  apply (uint8_cases
           (fun v => to_uint8 (Z.land (to_uint8 (Z.lor v 64)) (Z.lnot 64))
                     =? Z.land v (Z.lnot 64)));
    [vm_compute; reflexivity | assumption].
Qed.

Lemma clear_bit6_bits (v i : Z) :
  Z.testbit (Z.land v (Z.lnot 64)) i = Z.testbit v i && negb (i =? 6).
Proof.
  destruct (Z.ltb_spec i 0) as [Hneg | Hpos].
  - rewrite !Z.testbit_neg_r by assumption. reflexivity.
  - rewrite Z.land_spec, Z.lnot_spec by assumption.
    change 64 with (2 ^ 6). rewrite Z.pow2_bits_eqb by lia.
    rewrite (Z.eqb_sym 6 i). reflexivity.
Qed.

(** C6: for every byte in the power-management register, a second
    MPU6500_Sleep leaves the register (and the whole device) as the first
    one did, and MPU6500_WakeUp after MPU6500_Sleep leaves the register
    with bit 6 clear and every other bit, the clock-source field in bits
    2..0 among them, as it was at the start. *)
Theorem Sleep_idempotent_WakeUp_clears_sleep_bit w :
  is_uint8 (bus w PWR_MGMT_1) ->
  let v := bus w PWR_MGMT_1 in
  let once := snd (MPU6500_Sleep w) in
  let twice := snd (MPU6500_Sleep once) in
  let woken := snd (MPU6500_WakeUp once) in
  (forall r, bus twice r = bus once r) /\
  Z.testbit (bus once PWR_MGMT_1) 6 = true /\
  Z.testbit (bus woken PWR_MGMT_1) 6 = false /\
  (forall i, i <> 6 -> Z.testbit (bus woken PWR_MGMT_1) i = Z.testbit v i) /\
  Z.land (bus woken PWR_MGMT_1) 7 = Z.land v 7.
Proof.
  intros Hv. cbv zeta.
  rewrite regfile_Sleep. cbn [snd].
  rewrite regfile_Sleep, regfile_WakeUp. cbn [snd bus].
  rewrite !store_same.
  rewrite set_sleep_twice, set_then_clear_sleep by assumption.
  split; [| split; [| split; [| split]]].
  - intros r. unfold RegFile.store. destruct (r =? PWR_MGMT_1); reflexivity.
  - apply (uint8_cases (fun v => Z.testbit (to_uint8 (Z.lor v 64)) 6));
      [vm_compute; reflexivity | assumption].
  - rewrite clear_bit6_bits, Z.eqb_refl. apply andb_false_r.
  - intros i Hi. rewrite clear_bit6_bits.
    destruct (Z.eqb_spec i 6); [contradiction | apply andb_true_r].
  - apply Z.eqb_eq.
    apply (uint8_cases (fun v => Z.land (Z.land v (Z.lnot 64)) 7 =? Z.land v 7));
      [vm_compute; reflexivity | assumption].
Qed.

End OnRegisterFile.

(** C7: MPU6500_EnableDataReadyInterrupts and
    MPU6500_DisableDataReadyInterrupts each issue a single write of the
    interrupt-enable register and no read; whatever the register held, it
    then holds exactly bit 0 (Enable) or no bit at all (Disable). *)
Theorem DataReadyInterrupts_full_byte_write :
  (forall (Bus : Type) (hal : I2C_HAL Bus) (w : World Bus),
      trace (snd (MPU6500_EnableDataReadyInterrupts w)) = trace w ++ [EvWrite INT_ENABLE 1] /\
      trace (snd (MPU6500_DisableDataReadyInterrupts w)) = trace w ++ [EvWrite INT_ENABLE 0]) /\
  (forall (w : World (Z -> Z)) (i : Z),
      Z.testbit (bus (snd (MPU6500_EnableDataReadyInterrupts w)) INT_ENABLE) i = (i =? 0) /\
      Z.testbit (bus (snd (MPU6500_DisableDataReadyInterrupts w)) INT_ENABLE) i = false).
Proof.
  split.
  - intros Bus hal w.
    rewrite EnableDataReadyInterrupts_unfold, DisableDataReadyInterrupts_unfold.
    split; reflexivity.
  - intros w i.
    rewrite EnableDataReadyInterrupts_unfold, DisableDataReadyInterrupts_unfold.
    cbn [snd bus HAL_I2C_Mem_Write RegFile.hal RegFile.write nth].
    rewrite !store_same. split.
    + change 1 with (2 ^ 0). rewrite Z.pow2_bits_eqb by lia. apply Z.eqb_sym.
    + apply Z.bits_0.
Qed.

(** ** Fail-fast behaviour, on the scripted transport *)

Section OnScript.

Context {build : Build}.

Implicit Type w : World (list Script.Resp).

Lemma script_read_ok w (reg : Z) (len : nat) (buffer data : list Z) (rest : list Script.Resp) :
  bus w = Script.ok data :: rest ->
  mem_read w reg len buffer =
    (HAL_OK, data,
     mkWorld rest (trace w ++ [EvRead reg len]) (accel_offset w) (gyro_offset w)).
Proof. intros Hbus. unfold mem_read. cbn. rewrite Hbus. reflexivity. Qed.

Lemma script_read_any w (reg : Z) (len : nat) (buffer data : list Z)
      (status : HAL_StatusTypeDef) (rest : list Script.Resp) :
  bus w = (status, data) :: rest ->
  mem_read w reg len buffer =
    (status, data,
     mkWorld rest (trace w ++ [EvRead reg len]) (accel_offset w) (gyro_offset w)).
Proof. intros Hbus. unfold mem_read. cbn. rewrite Hbus. reflexivity. Qed.

Lemma script_write_any w (reg v : Z) (data : list Z)
      (status : HAL_StatusTypeDef) (rest : list Script.Resp) :
  bus w = (status, data) :: rest ->
  mem_write w reg v =
    (status,
     mkWorld rest (trace w ++ [EvWrite reg v]) (accel_offset w) (gyro_offset w)).
Proof. intros Hbus. unfold mem_write. cbn. rewrite Hbus. reflexivity. Qed.

(** Reduce the tests on a status known to be a failure. *)
Ltac fail_fast Hst :=
  repeat (cbv beta iota; rewrite (failed_true _ Hst)); cbv beta iota.

(** The sampling loop stops at the first failing read and reports it. *)
Lemma calibration_loop_fails (n : nat) :
  forall (pre : list (list Z)) w (accel_sum gyro_sum : Vec3 Z)
         (status : HAL_StatusTypeDef) (data : list Z) (rest : list Script.Resp),
    (length pre < 2 * n)%nat ->
    status <> HAL_OK ->
    bus w = map Script.ok pre ++ (status, data) :: rest ->
    exists a g,
      calibration_loop n w accel_sum gyro_sum =
        (status,
         mkWorld rest (trace w ++ sampling_prefix (length pre))
                 (accel_offset w) (gyro_offset w),
         a, g).
Proof.
  induction n as [| n IH]; intros pre w accel_sum gyro_sum status data rest Hlen Hst Hbus.
  - simpl in Hlen. lia.
  - destruct pre as [| a [| g pre]]; cbn [map app length] in Hbus.
    + cbn [calibration_loop]. unfold MPU6500_ReadRawAccel.
      rewrite (script_read_any _ _ _ _ _ _ _ Hbus). fail_fast Hst.
      cbn [length sampling_prefix].
      eexists; eexists; reflexivity.
    + cbn [calibration_loop]. unfold MPU6500_ReadRawAccel, MPU6500_ReadRawGyro.
      rewrite (script_read_ok _ _ _ _ _ _ Hbus). cbn [failed].
      erewrite script_read_any by reflexivity.
      fail_fast Hst. cbn [trace accel_offset gyro_offset length sampling_prefix].
      rewrite <- app_assoc.
      eexists; eexists; reflexivity.
    + cbn [calibration_loop]. unfold MPU6500_ReadRawAccel, MPU6500_ReadRawGyro.
      rewrite (script_read_ok _ _ _ _ _ _ Hbus). cbn [failed].
      erewrite script_read_ok by reflexivity. cbn [failed].
      match goal with
      | |- context [calibration_loop n ?w' ?a' ?g'] =>
          destruct (IH pre w' a' g' status data rest) as (a1 & g1 & Hloop);
            [cbn [length] in Hlen; lia | assumption | reflexivity |]
      end.
      rewrite Hloop. unfold delay.
      cbn [trace accel_offset gyro_offset length sampling_prefix].
      rewrite <- !app_assoc.
      eexists; eexists; reflexivity.
Qed.

(** C4: for every sampleCount > 0, when the transport answers the wake-up
    read and write and some raw reads, fewer than the loop needs, and then
    fails a raw accelerometer or gyroscope read, the calibration returns
    that status, issues no HAL call after the failing read, and leaves all
    six offsets as they were. *)
Theorem calibration_all_or_nothing w (samples : Z) (v wr : list Z)
        (pre : list (list Z)) (status : HAL_StatusTypeDef) (data : list Z)
        (rest : list Script.Resp) :
  0 < samples ->
  (length pre < 2 * Z.to_nat samples)%nat ->
  status <> HAL_OK ->
  bus w = Script.ok v :: (HAL_OK, wr) :: map Script.ok pre ++ (status, data) :: rest ->
  MPU6500_InitOffsetCalibration w samples =
    (status,
     mkWorld rest
             (trace w ++
              [EvRead PWR_MGMT_1 1;
               EvWrite PWR_MGMT_1 (to_uint8 (Z.land (nth 0 v 0) (Z.lnot 64)))] ++
              sampling_prefix (length pre))
             (accel_offset w) (gyro_offset w)).
Proof.
  intros Hpos Hlen Hst Hbus.
  unfold MPU6500_InitOffsetCalibration.
  destruct (Z.eqb_spec samples 0) as [-> | _]; [lia |].
  unfold MPU6500_WakeUp, MPU6500_ReadRegister, MPU6500_WriteRegister.
  rewrite (script_read_ok _ _ _ _ _ _ Hbus). cbn [failed].
  erewrite script_write_any by reflexivity. cbn [failed].
  match goal with
  | |- context [calibration_loop ?n ?w' ?a' ?g'] =>
      destruct (calibration_loop_fails n pre w' a' g' status data rest)
        as (a1 & g1 & Hloop); [assumption | assumption | reflexivity |]
  end.
  rewrite Hloop. fail_fast Hst.
  cbn [trace accel_offset gyro_offset].
  rewrite <- !app_assoc. reflexivity.
Qed.

Lemma register_accesses_snoc_write (tr : list Event) (reg v : Z) :
  register_accesses (tr ++ [EvWrite reg v]) = register_accesses tr ++ [EvWrite reg v].
Proof. apply register_accesses_app. Qed.

Lemma register_accesses_snoc_read (tr : list Event) (reg : Z) (len : nat) :
  register_accesses (tr ++ [EvRead reg len]) = register_accesses tr ++ [EvRead reg len].
Proof. apply register_accesses_app. Qed.

Lemma register_accesses_snoc_delay (tr : list Event) (ms : Z) :
  register_accesses (tr ++ [EvDelay ms]) = register_accesses tr.
Proof. rewrite register_accesses_app. apply app_nil_r. Qed.

(** One HAL call of the driver against a script whose head is known. *)
Ltac script_step :=
  match goal with
  | |- context [mem_write ?w ?r ?v] =>
      rewrite (script_write_any w r v _ _ _ eq_refl)
  | |- context [mem_read ?w ?r ?n ?buf] =>
      rewrite (script_read_any w r n buf _ _ _ eq_refl)
  end; cbv beta iota; cbn [failed bus trace accel_offset gyro_offset].

(** C5 (as amended): when the transport answers [length pre] register
    accesses of the initialization sequence and fails the next one, which
    is one of the nine accesses of steps 1..6, MPU6500_Init returns that
    status verbatim and has performed exactly the accesses of the sequence
    up to and including the failing one, in order, and none after it.  The
    byte [v] written back in step 5 comes from the read of that step. *)
Theorem Init_fail_fast w (pre : list (list Z)) (status : HAL_StatusTypeDef)
        (data : list Z) (rest : list Script.Resp) :
  (length pre < 9)%nat ->
  status <> HAL_OK ->
  bus w = map Script.ok pre ++ (status, data) :: rest ->
  let v := nth 0 (nth 6 pre []) 0 in
  fst (MPU6500_Init w) = status /\
  register_accesses (trace (snd (MPU6500_Init w))) =
    register_accesses (trace w) ++ firstn (S (length pre)) (init_steps 6 v) /\
  bus (snd (MPU6500_Init w)) = rest /\
  accel_offset (snd (MPU6500_Init w)) = accel_offset w /\
  gyro_offset (snd (MPU6500_Init w)) = gyro_offset w.
Proof.
  intros Hlen Hst Hbus. cbv zeta.
  destruct w as [b tr ao go]. cbn [bus] in Hbus. subst b.
  cbn [trace accel_offset gyro_offset].
  unfold MPU6500_Init, MPU6500_Reset, MPU6500_ConfigureClock, MPU6500_ConfigureAccel,
    MPU6500_ConfigureGyro, MPU6500_EnableTemperatureSensor, MPU6500_ConfigureInterrupts,
    MPU6500_ReadRegister, MPU6500_WriteRegister, delay.
  do 9 (destruct pre as [| ? pre];
        [ cbn [map app Script.ok];
          repeat script_step; fail_fast Hst;
          cbn [fst snd trace bus accel_offset gyro_offset length nth];
          repeat first [ rewrite register_accesses_snoc_write
                       | rewrite register_accesses_snoc_read
                       | rewrite register_accesses_snoc_delay ];
          rewrite <- ?app_assoc;
          repeat split; reflexivity
        | ]).
  cbn [length] in Hlen. lia.
Qed.

End OnScript.

(** ** Conversion to physical units *)

Section Conversion.

Context {Bus : Type} {hal : I2C_HAL Bus} {build : Build}.

Implicit Type w : World Bus.

(** What MPU6500_ReadAccel computes from a successful block read: per axis
    the difference of raw value and offset, narrowed to [int16_t], converted
    to float and divided by the accelerometer sensitivity. *)
Lemma ReadAccel_value w (out : Vec3 float32) (b0 b1 b2 b3 b4 b5 : Z) (b : Bus) :
  HAL_I2C_Mem_Read (bus w) (Z.shiftl MPU6500_ADDR 1) ACCEL_XOUT_H 6 (uninit 6)
    = (HAL_OK, [b0; b1; b2; b3; b4; b5], b) ->
  is_uint8 b0 -> is_uint8 b1 -> is_uint8 b2 ->
  is_uint8 b3 -> is_uint8 b4 -> is_uint8 b5 ->
  fst (MPU6500_ReadAccel w out) =
    (HAL_OK,
     mkVec3
       (div (of_Z (to_int16 (be_int16_spec b0 b1 - v0 (accel_offset w)))) MPU6500_ACCEL_SENS)
       (div (of_Z (to_int16 (be_int16_spec b2 b3 - v1 (accel_offset w)))) MPU6500_ACCEL_SENS)
       (div (of_Z (to_int16 (be_int16_spec b4 b5 - v2 (accel_offset w)))) MPU6500_ACCEL_SENS)).
Proof.
  intros Hread H0 H1 H2 H3 H4 H5.
  unfold MPU6500_ReadAccel, mem_read. rewrite Hread.
  cbn [failed fst accel_offset]. unfold be16. cbn [nth].
  rewrite !be16_pair by assumption. reflexivity.
Qed.

Lemma ReadGyro_value w (out : Vec3 float32) (b0 b1 b2 b3 b4 b5 : Z) (b : Bus) :
  HAL_I2C_Mem_Read (bus w) (Z.shiftl MPU6500_ADDR 1) GYRO_XOUT_H 6 (uninit 6)
    = (HAL_OK, [b0; b1; b2; b3; b4; b5], b) ->
  is_uint8 b0 -> is_uint8 b1 -> is_uint8 b2 ->
  is_uint8 b3 -> is_uint8 b4 -> is_uint8 b5 ->
  fst (MPU6500_ReadGyro w out) =
    (HAL_OK,
     mkVec3
       (div (of_Z (to_int16 (be_int16_spec b0 b1 - v0 (gyro_offset w)))) MPU6500_GYRO_SENS)
       (div (of_Z (to_int16 (be_int16_spec b2 b3 - v1 (gyro_offset w)))) MPU6500_GYRO_SENS)
       (div (of_Z (to_int16 (be_int16_spec b4 b5 - v2 (gyro_offset w)))) MPU6500_GYRO_SENS)).
Proof.
  intros Hread H0 H1 H2 H3 H4 H5.
  unfold MPU6500_ReadGyro, mem_read. rewrite Hread.
  cbn [failed fst gyro_offset]. unfold be16. cbn [nth].
  rewrite !be16_pair by assumption. reflexivity.
Qed.

(** X22: whenever raw - offset fits in 16 bits on every axis, the
    accelerometer result is the float quotient (raw - offset) / sensitivity. *)
Lemma ReadAccel_conversion_in_range w (out : Vec3 float32)
      (b0 b1 b2 b3 b4 b5 : Z) (b : Bus) :
  HAL_I2C_Mem_Read (bus w) (Z.shiftl MPU6500_ADDR 1) ACCEL_XOUT_H 6 (uninit 6)
    = (HAL_OK, [b0; b1; b2; b3; b4; b5], b) ->
  is_uint8 b0 -> is_uint8 b1 -> is_uint8 b2 ->
  is_uint8 b3 -> is_uint8 b4 -> is_uint8 b5 ->
  is_int16 (be_int16_spec b0 b1 - v0 (accel_offset w)) ->
  is_int16 (be_int16_spec b2 b3 - v1 (accel_offset w)) ->
  is_int16 (be_int16_spec b4 b5 - v2 (accel_offset w)) ->
  fst (MPU6500_ReadAccel w out) =
    (HAL_OK,
     mkVec3
       (div (of_Z (be_int16_spec b0 b1 - v0 (accel_offset w))) MPU6500_ACCEL_SENS)
       (div (of_Z (be_int16_spec b2 b3 - v1 (accel_offset w))) MPU6500_ACCEL_SENS)
       (div (of_Z (be_int16_spec b4 b5 - v2 (accel_offset w))) MPU6500_ACCEL_SENS)).
Proof.
  intros Hread H0 H1 H2 H3 H4 H5 Rx Ry Rz.
  rewrite (ReadAccel_value w out b0 b1 b2 b3 b4 b5 b) by assumption.
  rewrite !to_int16_small by assumption. reflexivity.
Qed.

(** X23: whenever raw - offset fits in 16 bits on every axis, the gyroscope
    result is the float quotient (raw - offset) / sensitivity. *)
Lemma ReadGyro_conversion_in_range w (out : Vec3 float32)
      (b0 b1 b2 b3 b4 b5 : Z) (b : Bus) :
  HAL_I2C_Mem_Read (bus w) (Z.shiftl MPU6500_ADDR 1) GYRO_XOUT_H 6 (uninit 6)
    = (HAL_OK, [b0; b1; b2; b3; b4; b5], b) ->
  is_uint8 b0 -> is_uint8 b1 -> is_uint8 b2 ->
  is_uint8 b3 -> is_uint8 b4 -> is_uint8 b5 ->
  is_int16 (be_int16_spec b0 b1 - v0 (gyro_offset w)) ->
  is_int16 (be_int16_spec b2 b3 - v1 (gyro_offset w)) ->
  is_int16 (be_int16_spec b4 b5 - v2 (gyro_offset w)) ->
  fst (MPU6500_ReadGyro w out) =
    (HAL_OK,
     mkVec3
       (div (of_Z (be_int16_spec b0 b1 - v0 (gyro_offset w))) MPU6500_GYRO_SENS)
       (div (of_Z (be_int16_spec b2 b3 - v1 (gyro_offset w))) MPU6500_GYRO_SENS)
       (div (of_Z (be_int16_spec b4 b5 - v2 (gyro_offset w))) MPU6500_GYRO_SENS)).
Proof.
  intros Hread H0 H1 H2 H3 H4 H5 Rx Ry Rz.
  rewrite (ReadGyro_value w out b0 b1 b2 b3 b4 b5 b) by assumption.
  rewrite !to_int16_small by assumption. reflexivity.
Qed.

End Conversion.

(** ** Runs on concrete inputs *)

(** The sample points of the conversion: raw 0 gives 0.0, and with the
    sensitivity 16384.0 raw 16384 gives 1.0 and raw -16384 gives -1.0 (the
    repository's own build divides by 8192.0 and gives 2.0 and -2.0). *)
Example ReadAccel_sample_points :
  fst (MPU6500_ReadAccel (build := build_2g)
         (power_on [Script.ok [0x40; 0x00; 0x00; 0x00; 0xC0; 0x00]])
         (mkVec3 zero zero zero))
    = (HAL_OK, mkVec3 (of_Z 1) zero (of_Z (-1))) /\
  fst (MPU6500_ReadAccel (build := repository_build)
         (power_on [Script.ok [0x40; 0x00; 0x00; 0x00; 0xC0; 0x00]])
         (mkVec3 zero zero zero))
    = (HAL_OK, mkVec3 (of_Z 2) zero (of_Z (-2))).
Proof. split; vm_compute; reflexivity. Qed.

(** C1: with raw X = 32767 (bytes 7F FF) and X offset -1 the difference
    32768 does not fit the driver's 16-bit intermediate: MPU6500_ReadAccel
    returns -4.0 where (raw - offset) / sensitivity is 32768 / 8192.0 = 4.0.
    MPU6500_ReadGyro narrows the same way. *)
Theorem ReadAccel_difference_wraps :
  let w := mkWorld [Script.ok [0x7F; 0xFF; 0x00; 0x00; 0x00; 0x00]] []
                   (mkVec3 (-1) 0 0) (mkVec3 (-1) 0 0) in
  be_int16_spec 0x7F 0xFF = 32767 /\
  fst (MPU6500_ReadAccel (build := repository_build) w (mkVec3 zero zero zero))
    = (HAL_OK, mkVec3 (of_Z (-4)) zero zero) /\
  div (of_Z (32767 - (-1))) (MPU6500_ACCEL_SENS (build := repository_build)) = of_Z 4 /\
  v0 (snd (fst (MPU6500_ReadGyro (build := repository_build) w (mkVec3 zero zero zero))))
    = div (of_Z (-32768)) (MPU6500_GYRO_SENS (build := repository_build)) /\
  of_Z (-4) <> of_Z 4.
Proof. cbv zeta. repeat split; try (vm_compute; reflexivity). vm_compute. discriminate. Qed.

(** C2: three identical samples with raw gyroscope X = -1 (bytes FF FF) and
    the device level (accelerometer Z = 8192, the 1 g count).  The mean of
    the X samples is -1; MPU6500_InitOffsetCalibration stores 21844, the low
    16 bits of the unsigned quotient (2^32 - 3) / 3. *)
Theorem calibration_negative_sum :
  let accel := Script.ok [0x00; 0x00; 0x00; 0x00; 0x20; 0x00] in
  let gyro := Script.ok [0xFF; 0xFF; 0x00; 0x00; 0x00; 0x00] in
  let w := power_on [Script.ok [0x01]; Script.ok [];
                     accel; gyro; accel; gyro; accel; gyro] in
  let r := MPU6500_InitOffsetCalibration (build := repository_build) w 3 in
  fst r = HAL_OK /\
  accel_offset (snd r) = mkVec3 0 0 0 /\
  gyro_offset (snd r) = mkVec3 21844 0 0 /\
  mean_spec [be_int16_spec 0xFF 0xFF; be_int16_spec 0xFF 0xFF; be_int16_spec 0xFF 0xFF] = -1 /\
  mean16 (-3) 3 = 21844.
Proof. cbv zeta. repeat split; vm_compute; reflexivity. Qed.

(** C3, where the specification asks for more than the driver gives: the
    status returned for sampleCount = 0 is HAL_ERROR, the very status a
    failing bus read makes the calibration return, so it is not distinct
    from the transport's failure codes. *)
Lemma calibration_invalid_argument_not_distinct :
  let w := power_on [(HAL_ERROR, [])] in
  fst (MPU6500_InitOffsetCalibration (build := repository_build) w 0) = HAL_ERROR /\
  trace (snd (MPU6500_InitOffsetCalibration (build := repository_build) w 0)) = [] /\
  fst (MPU6500_InitOffsetCalibration (build := repository_build) w 1) = HAL_ERROR /\
  trace (snd (MPU6500_InitOffsetCalibration (build := repository_build) w 1))
    = [EvRead PWR_MGMT_1 1] /\
  ~ (forall status : HAL_StatusTypeDef,
        status <> HAL_OK ->
        fst (MPU6500_InitOffsetCalibration (build := repository_build) w 0) <> status).
Proof.
  cbv zeta. repeat split; try (vm_compute; reflexivity).
  intros Hdistinct. apply (Hdistinct HAL_ERROR); [discriminate | reflexivity].
Qed.

(** C5, with step 3 taken as a whole: when the first of the two writes of
    step 3 fails, the second write of step 3 is not performed, so the
    accesses are those of steps 1..2 and one write, not all of steps 1..3. *)
Lemma Init_step3_first_write_fails :
  let w := power_on [Script.ok []; Script.ok []; (HAL_ERROR, [])] in
  let r := MPU6500_Init (build := repository_build) w in
  fst r = HAL_ERROR /\
  register_accesses (trace (snd r)) =
    init_steps (build := repository_build) 2 0 ++ [EvWrite ACCEL_CONFIG 0x08] /\
  hd_error (init_step (build := repository_build) 3 0) = Some (EvWrite ACCEL_CONFIG 0x08) /\
  forall v, register_accesses (trace (snd r)) <> init_steps (build := repository_build) 3 v.
Proof.
  cbv zeta. repeat split; try (vm_compute; reflexivity).
  intros v. vm_compute. discriminate.
Qed.

(** ** Calibration on well-behaved inputs *)

Section CalibrationMean.

Context {build : Build}.

Implicit Type w : World (list Script.Resp).

Lemma to_int32_small (z : Z) : -2147483648 <= z <= 2147483647 -> to_int32 z = z.
Proof. intros Hz. unfold to_int32. rewrite Z.mod_small by lia. lia. Qed.

Lemma be16_range (buffer : list Z) (i : nat) : is_int16 (be16 buffer i).
Proof. unfold be16. apply to_int16_range. Qed.

(** The mean the driver computes is the sample itself when every one of
    [n] samples has the same non-negative value [x]. *)
Lemma mean16_of_equal_samples (n x : Z) :
  0 < n <= 65536 -> 0 <= x <= 32767 -> mean16 (n * x) n = x.
Proof.
  intros Hn Hx. unfold mean16, to_uint32, udiv.
  rewrite Z.mod_small by nia.
  rewrite Z.mul_comm, Z.quot_mul by lia.
  apply to_int16_small. unfold is_int16. lia.
Qed.

(** The loop on [n] identical successful sample pairs adds the sample [n]
    times to each running sum, without overflow while the count stays
    within 65536. *)
Lemma calibration_loop_identical (a g : list Z) (n : nat) :
  forall (k : Z) w (rest : list Script.Resp),
    0 <= k -> k + Z.of_nat n <= 65536 ->
    0 <= be16 a 0 -> 0 <= be16 a 2 -> 0 <= one_g_raw <= be16 a 4 ->
    0 <= be16 g 0 -> 0 <= be16 g 2 -> 0 <= be16 g 4 ->
    bus w = concat (repeat [Script.ok a; Script.ok g] n) ++ rest ->
    exists w',
      calibration_loop n w
        (mkVec3 (k * be16 a 0) (k * be16 a 2) (k * (be16 a 4 - one_g_raw)))
        (mkVec3 (k * be16 g 0) (k * be16 g 2) (k * be16 g 4))
      = (HAL_OK, w',
         mkVec3 ((k + Z.of_nat n) * be16 a 0) ((k + Z.of_nat n) * be16 a 2)
                ((k + Z.of_nat n) * (be16 a 4 - one_g_raw)),
         mkVec3 ((k + Z.of_nat n) * be16 g 0) ((k + Z.of_nat n) * be16 g 2)
                ((k + Z.of_nat n) * be16 g 4)) /\
      bus w' = rest /\
      accel_offset w' = accel_offset w /\ gyro_offset w' = gyro_offset w.
Proof.
  induction n as [| n IH]; intros k w rest Hk Hkn Hax Hay Haz Hgx Hgy Hgz Hbus.
  - cbn [calibration_loop]. exists w.
    cbn [Z.of_nat repeat concat app] in *. rewrite !Z.add_0_r.
    repeat split; [assumption].
  - cbn [repeat concat app] in Hbus.
    cbn [calibration_loop]. unfold MPU6500_ReadRawAccel, MPU6500_ReadRawGyro.
    rewrite (script_read_ok _ _ _ _ _ _ Hbus). cbn [failed].
    erewrite script_read_ok by reflexivity. cbn [failed v0 v1 v2].
    pose proof (be16_range a 0) as [_ Uax]. pose proof (be16_range a 2) as [_ Uay].
    pose proof (be16_range a 4) as [_ Uaz]. pose proof (be16_range g 0) as [_ Ugx].
    pose proof (be16_range g 2) as [_ Ugy]. pose proof (be16_range g 4) as [_ Ugz].
    rewrite !to_int32_small by nia.
    replace (k * be16 a 0 + be16 a 0) with ((k + 1) * be16 a 0) by lia.
    replace (k * be16 a 2 + be16 a 2) with ((k + 1) * be16 a 2) by lia.
    replace (k * (be16 a 4 - one_g_raw) + (be16 a 4 - one_g_raw))
      with ((k + 1) * (be16 a 4 - one_g_raw)) by lia.
    replace (k * be16 g 0 + be16 g 0) with ((k + 1) * be16 g 0) by lia.
    replace (k * be16 g 2 + be16 g 2) with ((k + 1) * be16 g 2) by lia.
    replace (k * be16 g 4 + be16 g 4) with ((k + 1) * be16 g 4) by lia.
    match goal with
    | |- context [calibration_loop n ?w1 _ _] =>
        destruct (IH (k + 1) w1 rest) as (w' & Hloop & Hrest & Hao & Hgo);
          try assumption; try lia; [reflexivity |]
    end.
    exists w'. rewrite Hloop.
    replace (k + 1 + Z.of_nat n) with (k + Z.of_nat (S n)) by lia.
    repeat split; assumption.
Qed.

(** X20: with N identical raw samples whose axis values are non-negative (for
    accelerometer Z: at least the 1 g count) and N at most 65536, the stored
    offset is the sample's value on every axis, and the sample minus the 1 g
    count on accelerometer Z. *)
Theorem calibration_identical_samples w (samples : Z) (v wr a g : list Z)
        (rest : list Script.Resp) :
  0 < samples <= 65536 ->
  0 <= be16 a 0 -> 0 <= be16 a 2 -> 0 <= one_g_raw <= be16 a 4 ->
  0 <= be16 g 0 -> 0 <= be16 g 2 -> 0 <= be16 g 4 ->
  bus w = Script.ok v :: (HAL_OK, wr) ::
          concat (repeat [Script.ok a; Script.ok g] (Z.to_nat samples)) ++ rest ->
  fst (MPU6500_InitOffsetCalibration w samples) = HAL_OK /\
  accel_offset (snd (MPU6500_InitOffsetCalibration w samples))
    = mkVec3 (be16 a 0) (be16 a 2) (be16 a 4 - one_g_raw) /\
  gyro_offset (snd (MPU6500_InitOffsetCalibration w samples))
    = mkVec3 (be16 g 0) (be16 g 2) (be16 g 4).
Proof.
  intros Hn Hax Hay Haz Hgx Hgy Hgz Hbus.
  unfold MPU6500_InitOffsetCalibration.
  destruct (Z.eqb_spec samples 0) as [-> | _]; [lia |].
  unfold MPU6500_WakeUp, MPU6500_ReadRegister, MPU6500_WriteRegister.
  rewrite (script_read_ok _ _ _ _ _ _ Hbus). cbn [failed].
  erewrite script_write_any by reflexivity. cbn [failed].
  match goal with
  | |- context [calibration_loop ?n ?w1 _ _] =>
      destruct (calibration_loop_identical a g n 0 w1 rest)
        as (w' & Hloop & _ & _ & _); try assumption; try lia; [reflexivity |]
  end.
  cbn [Z.mul] in Hloop. unfold zero3. rewrite Hloop. cbn [failed fst snd].
  rewrite Z.add_0_l, Z2Nat.id by lia.
  cbn [accel_offset gyro_offset v0 v1 v2].
  pose proof (be16_range a 0) as [_ Uax]. pose proof (be16_range a 2) as [_ Uay].
  pose proof (be16_range a 4) as [_ Uaz]. pose proof (be16_range g 0) as [_ Ugx].
  pose proof (be16_range g 2) as [_ Ugy]. pose proof (be16_range g 4) as [_ Ugz].
  rewrite !mean16_of_equal_samples by lia.
  repeat split.
Qed.

End CalibrationMean.

(** Three identical samples (5, 7, 8200) and (1, 2, 3) on the repository
    build. *)
Lemma calibration_identical_samples_runs :
  let accel := [0x00; 0x05; 0x00; 0x07; 0x20; 0x08] in
  let gyro := [0x00; 0x01; 0x00; 0x02; 0x00; 0x03] in
  let w := power_on [Script.ok [0x01]; Script.ok [];
                     Script.ok accel; Script.ok gyro; Script.ok accel; Script.ok gyro;
                     Script.ok accel; Script.ok gyro] in
  let r := MPU6500_InitOffsetCalibration (build := repository_build) w 3 in
  fst r = HAL_OK /\
  accel_offset (snd r) = mkVec3 5 7 8 /\
  gyro_offset (snd r) = mkVec3 1 2 3.
Proof.
  cbv zeta.
  apply (calibration_identical_samples (build := repository_build)
           (power_on [Script.ok [0x01]; Script.ok [];
                      Script.ok [0x00; 0x05; 0x00; 0x07; 0x20; 0x08];
                      Script.ok [0x00; 0x01; 0x00; 0x02; 0x00; 0x03];
                      Script.ok [0x00; 0x05; 0x00; 0x07; 0x20; 0x08];
                      Script.ok [0x00; 0x01; 0x00; 0x02; 0x00; 0x03];
                      Script.ok [0x00; 0x05; 0x00; 0x07; 0x20; 0x08];
                      Script.ok [0x00; 0x01; 0x00; 0x02; 0x00; 0x03]])
           3 [0x01] [] [0x00; 0x05; 0x00; 0x07; 0x20; 0x08]
           [0x00; 0x01; 0x00; 0x02; 0x00; 0x03] []);
    try (vm_compute; intuition discriminate); reflexivity.
Defined.

(** ** Instances of the theorems *)

(** C9 on a scripted read answering 0x70. *)
Lemma ReadWhoAmI_verbatim_witness :
  MPU6500_ReadWhoAmI (power_on [Script.ok [0x70]]) 0
    = (HAL_OK, 0x70, mkWorld [] [EvRead WHO_AM_I 1] zero3 zero3).
Proof.
  apply (ReadWhoAmI_verbatim (power_on [Script.ok [0x70]]) 0 0x70 HAL_OK []).
  reflexivity.
Defined.

(** C8 on the bytes FF 38, the raw temperature -200. *)
Lemma ReadTemp_big_endian_witness :
  is_uint8 0xFF /\ is_uint8 0x38 /\
  MPU6500_ReadTemp (power_on [Script.ok [0xFF; 0x38]]) 0
    = (HAL_OK, -200, mkWorld [] [EvRead TEMP_OUT_H 2] zero3 zero3).
Proof.
  assert (Hhi : is_uint8 0xFF) by (unfold is_uint8; lia).
  assert (Hlo : is_uint8 0x38) by (unfold is_uint8; lia).
  split; [exact Hhi | split; [exact Hlo |]].
  apply (ReadTemp_big_endian (power_on [Script.ok [0xFF; 0x38]]) 0 0xFF 0x38 [] Hhi Hlo).
  reflexivity.
Defined.

(** C10 on a transport that answers HAL_BUSY while filling the buffer. *)
Lemma failed_read_leaves_outputs_witness :
  let w := power_on [(HAL_BUSY, [1; 2; 3; 4; 5; 6])] in
  let fout := mkVec3 (of_Z 7) (of_Z 8) (of_Z 9) in
  let iout := mkVec3 7 8 9 in
  fst (MPU6500_ReadAccel (build := repository_build) w fout) = (HAL_BUSY, fout) /\
  fst (MPU6500_ReadRawAccel w iout) = (HAL_BUSY, iout) /\
  fst (MPU6500_ReadGyro (build := repository_build) w fout) = (HAL_BUSY, fout) /\
  fst (MPU6500_ReadRawGyro w iout) = (HAL_BUSY, iout) /\
  fst (MPU6500_ReadTemp w 10) = (HAL_BUSY, 10).
Proof.
  cbv zeta.
  destruct (failed_read_leaves_outputs (build := repository_build)
              (power_on [(HAL_BUSY, [1; 2; 3; 4; 5; 6])])
              (mkVec3 (of_Z 7) (of_Z 8) (of_Z 9)) (mkVec3 7 8 9) 10)
    as (Haccel & Hgyro & Htemp).
  destruct (Haccel ltac:(discriminate)) as [Ha Hra].
  destruct (Hgyro ltac:(discriminate)) as [Hg Hrg].
  pose proof (Htemp ltac:(discriminate)) as Ht.
  repeat split; assumption.
Defined.

(** C6 with the clock-source field set to 3 before the calls. *)
Lemma Sleep_idempotent_WakeUp_clears_sleep_bit_witness :
  let w := power_on (fun r => if r =? PWR_MGMT_1 then 0x03 else 0) in
  is_uint8 (bus w PWR_MGMT_1) /\
  Z.land (bus (snd (MPU6500_WakeUp (snd (MPU6500_Sleep w)))) PWR_MGMT_1) 7 = 3.
Proof.
  cbv zeta.
  assert (Hv : is_uint8 (bus (power_on (fun r => if r =? PWR_MGMT_1 then 0x03 else 0)) PWR_MGMT_1))
    by (unfold is_uint8; cbn; lia).
  split; [exact Hv |].
  destruct (Sleep_idempotent_WakeUp_clears_sleep_bit _ Hv) as (_ & _ & _ & _ & Hclk).
  exact Hclk.
Defined.

(** C4 with two samples asked for and the gyroscope read of the second
    iteration timing out. *)
Lemma calibration_all_or_nothing_witness :
  let w := mkWorld [Script.ok [0x41]; Script.ok [];
                    Script.ok [0; 1; 0; 2; 0x20; 3]; Script.ok [0; 4; 0; 5; 0; 6];
                    Script.ok [0; 1; 0; 2; 0x20; 3]; (HAL_TIMEOUT, [])]
                   [] (mkVec3 11 12 13) (mkVec3 14 15 16) in
  MPU6500_InitOffsetCalibration (build := repository_build) w 2 =
    (HAL_TIMEOUT,
     mkWorld []
             [EvRead PWR_MGMT_1 1; EvWrite PWR_MGMT_1 0x01;
              EvRead ACCEL_XOUT_H 6; EvRead GYRO_XOUT_H 6; EvDelay 5;
              EvRead ACCEL_XOUT_H 6; EvRead GYRO_XOUT_H 6]
             (mkVec3 11 12 13) (mkVec3 14 15 16)).
Proof.
  cbv zeta.
  apply (calibration_all_or_nothing (build := repository_build)
           (mkWorld [Script.ok [0x41]; Script.ok [];
                     Script.ok [0; 1; 0; 2; 0x20; 3]; Script.ok [0; 4; 0; 5; 0; 6];
                     Script.ok [0; 1; 0; 2; 0x20; 3]; (HAL_TIMEOUT, [])]
                    [] (mkVec3 11 12 13) (mkVec3 14 15 16))
           2 [0x41] []
           [[0; 1; 0; 2; 0x20; 3]; [0; 4; 0; 5; 0; 6]; [0; 1; 0; 2; 0x20; 3]]
           HAL_TIMEOUT [] []).
  - lia.
  - vm_compute. lia.
  - discriminate.
  - reflexivity.
Defined.

(** C5 with the second write of step 3 answered HAL_BUSY. *)
Lemma Init_fail_fast_witness :
  let w := power_on [Script.ok []; Script.ok []; Script.ok []; (HAL_BUSY, [])] in
  fst (MPU6500_Init (build := repository_build) w) = HAL_BUSY /\
  register_accesses (trace (snd (MPU6500_Init (build := repository_build) w))) =
    [EvWrite PWR_MGMT_1 0x80; EvWrite PWR_MGMT_1 0x01;
     EvWrite ACCEL_CONFIG 0x08; EvWrite ACCEL_CONFIG_2 0x04].
Proof.
  cbv zeta.
  destruct (Init_fail_fast (build := repository_build)
              (power_on [Script.ok []; Script.ok []; Script.ok []; (HAL_BUSY, [])])
              [[]; []; []] HAL_BUSY [] [])
    as (Hst & Htr & _).
  - vm_compute. lia.
  - discriminate.
  - reflexivity.
  - split; [exact Hst | exact Htr].
Defined.

(** ** Further properties: the read operations *)

Section ReadOperations.

Context {Bus : Type} {hal : I2C_HAL Bus} {build : Build}.

Implicit Type w : World Bus.

(** X1: on a successful block read both raw read operations store, per
    axis, the signed big-endian combination of the axis's byte pair, which
    is an [int16_t] value. *)
Theorem ReadRaw_values w (out : Vec3 Z) (b0 b1 b2 b3 b4 b5 : Z) (b : Bus) :
  is_uint8 b0 -> is_uint8 b1 -> is_uint8 b2 ->
  is_uint8 b3 -> is_uint8 b4 -> is_uint8 b5 ->
  let raw := mkVec3 (be_int16_spec b0 b1) (be_int16_spec b2 b3) (be_int16_spec b4 b5) in
  (HAL_I2C_Mem_Read (bus w) (Z.shiftl MPU6500_ADDR 1) ACCEL_XOUT_H 6 (uninit 6)
     = (HAL_OK, [b0; b1; b2; b3; b4; b5], b) ->
   fst (MPU6500_ReadRawAccel w out) = (HAL_OK, raw)) /\
  (HAL_I2C_Mem_Read (bus w) (Z.shiftl MPU6500_ADDR 1) GYRO_XOUT_H 6 (uninit 6)
     = (HAL_OK, [b0; b1; b2; b3; b4; b5], b) ->
   fst (MPU6500_ReadRawGyro w out) = (HAL_OK, raw)) /\
  is_int16 (v0 raw) /\ is_int16 (v1 raw) /\ is_int16 (v2 raw).
Proof.
  intros H0 H1 H2 H3 H4 H5. cbv zeta. cbn [v0 v1 v2].
  split; [| split; [| repeat split; apply be_int16_spec_range; assumption]].
  - intros Hread. unfold MPU6500_ReadRawAccel, mem_read. rewrite Hread.
    cbn [failed fst]. unfold be16. cbn [nth].
    rewrite !be16_pair by assumption. reflexivity.
  - intros Hread. unfold MPU6500_ReadRawGyro, mem_read. rewrite Hread.
    cbn [failed fst]. unfold be16. cbn [nth].
    rewrite !be16_pair by assumption. reflexivity.
Qed.

(** X2: while the offsets are zero, as they are from start-up until a
    calibration succeeds, no sample can overflow the 16-bit difference:
    both conversions return raw / sensitivity on every axis for every
    six bytes read. *)
Theorem conversion_with_zero_offsets w (out : Vec3 float32)
        (b0 b1 b2 b3 b4 b5 : Z) (b : Bus) :
  is_uint8 b0 -> is_uint8 b1 -> is_uint8 b2 ->
  is_uint8 b3 -> is_uint8 b4 -> is_uint8 b5 ->
  (accel_offset w = zero3 ->
   HAL_I2C_Mem_Read (bus w) (Z.shiftl MPU6500_ADDR 1) ACCEL_XOUT_H 6 (uninit 6)
     = (HAL_OK, [b0; b1; b2; b3; b4; b5], b) ->
   fst (MPU6500_ReadAccel w out) =
     (HAL_OK,
      mkVec3 (div (of_Z (be_int16_spec b0 b1)) MPU6500_ACCEL_SENS)
             (div (of_Z (be_int16_spec b2 b3)) MPU6500_ACCEL_SENS)
             (div (of_Z (be_int16_spec b4 b5)) MPU6500_ACCEL_SENS))) /\
  (gyro_offset w = zero3 ->
   HAL_I2C_Mem_Read (bus w) (Z.shiftl MPU6500_ADDR 1) GYRO_XOUT_H 6 (uninit 6)
     = (HAL_OK, [b0; b1; b2; b3; b4; b5], b) ->
   fst (MPU6500_ReadGyro w out) =
     (HAL_OK,
      mkVec3 (div (of_Z (be_int16_spec b0 b1)) MPU6500_GYRO_SENS)
             (div (of_Z (be_int16_spec b2 b3)) MPU6500_GYRO_SENS)
             (div (of_Z (be_int16_spec b4 b5)) MPU6500_GYRO_SENS))).
Proof.
  intros H0 H1 H2 H3 H4 H5.
  pose proof (be_int16_spec_range b0 b1 H0 H1) as Rx.
  pose proof (be_int16_spec_range b2 b3 H2 H3) as Ry.
  pose proof (be_int16_spec_range b4 b5 H4 H5) as Rz.
  split; intros Hoff Hread.
  - rewrite (ReadAccel_value w out b0 b1 b2 b3 b4 b5 b) by assumption.
    rewrite Hoff. cbn [zero3 v0 v1 v2]. rewrite !Z.sub_0_r.
    rewrite !to_int16_small by assumption. reflexivity.
  - rewrite (ReadGyro_value w out b0 b1 b2 b3 b4 b5 b) by assumption.
    rewrite Hoff. cbn [zero3 v0 v1 v2]. rewrite !Z.sub_0_r.
    rewrite !to_int16_small by assumption. reflexivity.
Qed.

(** X3: every read operation, successful or not, makes exactly one HAL
    call, a block read of its own register, hands the transport on in the
    state that read left it in, and keeps the offsets: no read operation ever
    writes to the device or waits. *)
Theorem read_operations_read_once w (fout : Vec3 float32) (iout : Vec3 Z) (cell : Z) :
  let after reg n buffer :=
    mkWorld (snd (HAL_I2C_Mem_Read (bus w) (Z.shiftl MPU6500_ADDR 1) reg n buffer))
            (trace w ++ [EvRead reg n]) (accel_offset w) (gyro_offset w) in
  snd (MPU6500_ReadAccel w fout) = after ACCEL_XOUT_H 6%nat (uninit 6) /\
  snd (MPU6500_ReadRawAccel w iout) = after ACCEL_XOUT_H 6%nat (uninit 6) /\
  snd (MPU6500_ReadGyro w fout) = after GYRO_XOUT_H 6%nat (uninit 6) /\
  snd (MPU6500_ReadRawGyro w iout) = after GYRO_XOUT_H 6%nat (uninit 6) /\
  snd (MPU6500_ReadTemp w cell) = after TEMP_OUT_H 2%nat (uninit 2) /\
  snd (MPU6500_ReadWhoAmI w cell) = after WHO_AM_I 1%nat [cell].
Proof.
  cbv zeta.
  unfold MPU6500_ReadAccel, MPU6500_ReadRawAccel, MPU6500_ReadGyro,
    MPU6500_ReadRawGyro, MPU6500_ReadTemp, MPU6500_ReadWhoAmI,
    MPU6500_ReadRegister, mem_read.
  repeat split;
    match goal with
    | |- context [HAL_I2C_Mem_Read ?b ?d ?r ?n ?buf] =>
        destruct (HAL_I2C_Mem_Read b d r n buf) as [[status buffer] b']
    end;
    cbn [snd]; try destruct (failed status); reflexivity.
Qed.

End ReadOperations.

(** ** Further properties: read-modify-write of the power register *)

Section ReadModifyWrite.

Context {Bus : Type} {hal : I2C_HAL Bus}.

Implicit Type w : World Bus.

(** X4: when the read half of a read-modify-write fails, MPU6500_Sleep,
    MPU6500_WakeUp and the two temperature-sensor helpers return that status
    and stop: the only HAL call made is the read, so nothing is written. *)
Theorem read_modify_write_stops_on_failed_read w (status : HAL_StatusTypeDef)
        (buffer : list Z) (b : Bus) :
  HAL_I2C_Mem_Read (bus w) (Z.shiftl MPU6500_ADDR 1) PWR_MGMT_1 1 [0] = (status, buffer, b) ->
  status <> HAL_OK ->
  let stopped :=
    (status, mkWorld b (trace w ++ [EvRead PWR_MGMT_1 1]) (accel_offset w) (gyro_offset w)) in
  MPU6500_Sleep w = stopped /\
  MPU6500_WakeUp w = stopped /\
  MPU6500_EnableTemperatureSensor w = stopped /\
  MPU6500_DisableTemperatureSensor w = stopped.
Proof.
  intros Hread Hst. cbv zeta.
  unfold MPU6500_Sleep, MPU6500_WakeUp, MPU6500_EnableTemperatureSensor,
    MPU6500_DisableTemperatureSensor, MPU6500_ReadRegister, mem_read.
  rewrite Hread. rewrite (failed_true _ Hst). repeat split.
Qed.

(** The bytes the read-modify-write operations write back for a byte read. *)
Lemma write_back_bytes (v : Z) :
  is_uint8 v ->
  to_uint8 (Z.lor v (Z.shiftl 1 6)) = Z.lor v 64 /\
  to_uint8 (Z.land v (Z.lnot (Z.shiftl 1 6))) = Z.land v (Z.lnot 64) /\
  to_uint8 (Z.lor v (Z.shiftl 1 4)) = Z.lor v 16 /\
  to_uint8 (Z.land v (Z.lnot (Z.shiftl 1 4))) = Z.land v (Z.lnot 16).
Proof.
  intros Hv. repeat split; apply Z.eqb_eq.
  - apply (uint8_cases (fun v => to_uint8 (Z.lor v (Z.shiftl 1 6)) =? Z.lor v 64));
      [vm_compute; reflexivity | assumption].
  - apply (uint8_cases
             (fun v => to_uint8 (Z.land v (Z.lnot (Z.shiftl 1 6))) =? Z.land v (Z.lnot 64)));
      [vm_compute; reflexivity | assumption].
  - apply (uint8_cases (fun v => to_uint8 (Z.lor v (Z.shiftl 1 4)) =? Z.lor v 16));
      [vm_compute; reflexivity | assumption].
  - apply (uint8_cases
             (fun v => to_uint8 (Z.land v (Z.lnot (Z.shiftl 1 4))) =? Z.land v (Z.lnot 16)));
      [vm_compute; reflexivity | assumption].
Qed.

Lemma set_bit_bits (v k i : Z) :
  0 <= k -> Z.testbit (Z.lor v (2 ^ k)) i = Z.testbit v i || (i =? k).
Proof.
  intros Hk. rewrite Z.lor_spec, Z.pow2_bits_eqb by assumption.
  rewrite (Z.eqb_sym k i). reflexivity.
Qed.

Lemma clear_bit_bits (v k i : Z) :
  0 <= k -> Z.testbit (Z.land v (Z.lnot (2 ^ k))) i = Z.testbit v i && negb (i =? k).
Proof.
  intros Hk. destruct (Z.ltb_spec i 0) as [Hneg | Hpos].
  - rewrite !Z.testbit_neg_r by assumption. reflexivity.
  - rewrite Z.land_spec, Z.lnot_spec, Z.pow2_bits_eqb by assumption.
    rewrite (Z.eqb_sym k i). reflexivity.
Qed.

(** X5: when the read half succeeds with byte [v], each read-modify-write
    operation makes exactly one more HAL call, a write of [v] with its own
    bit changed and every other bit as read (bit 6 set by Sleep and cleared
    by WakeUp, bit 4 set by DisableTemperatureSensor and cleared by
    EnableTemperatureSensor), and returns the status of that write. *)
Theorem read_modify_write_changes_one_bit w (v : Z) (b : Bus) :
  HAL_I2C_Mem_Read (bus w) (Z.shiftl MPU6500_ADDR 1) PWR_MGMT_1 1 [0] = (HAL_OK, [v], b) ->
  is_uint8 v ->
  (MPU6500_Sleep w = written_back w b (Z.lor v (2 ^ 6)) /\
   MPU6500_WakeUp w = written_back w b (Z.land v (Z.lnot (2 ^ 6))) /\
   MPU6500_DisableTemperatureSensor w = written_back w b (Z.lor v (2 ^ 4)) /\
   MPU6500_EnableTemperatureSensor w = written_back w b (Z.land v (Z.lnot (2 ^ 4)))) /\
  (forall k i, 0 <= k ->
     Z.testbit (Z.lor v (2 ^ k)) i = Z.testbit v i || (i =? k) /\
     Z.testbit (Z.land v (Z.lnot (2 ^ k))) i = Z.testbit v i && negb (i =? k)).
Proof.
  intros Hread Hv.
  destruct (write_back_bytes v Hv) as (Hs & Hw & Hd & He).
  split.
  - unfold MPU6500_Sleep, MPU6500_WakeUp, MPU6500_EnableTemperatureSensor,
      MPU6500_DisableTemperatureSensor, MPU6500_ReadRegister, MPU6500_WriteRegister,
      mem_read, written_back.
    rewrite Hread. cbn [failed nth]. rewrite Hs, Hw, Hd, He.
    change (2 ^ 6) with 64. change (2 ^ 4) with 16.
    unfold mem_write. cbn [bus trace accel_offset gyro_offset].
    repeat split;
      match goal with
      | |- context [HAL_I2C_Mem_Write ?b ?d ?r ?data] =>
          destruct (HAL_I2C_Mem_Write b d r data) as [status b']
      end; cbn [fst snd]; rewrite <- app_assoc; reflexivity.
  - intros k i Hk. split; [apply set_bit_bits | apply clear_bit_bits]; assumption.
Qed.

End ReadModifyWrite.

(** ** Further properties: register contents on the register-file device *)

Section RegisterFileAlgebra.

Implicit Type w : World (Z -> Z).

Lemma regfile_EnableTemperatureSensor w :
  MPU6500_EnableTemperatureSensor w =
    (HAL_OK,
     mkWorld (RegFile.store (bus w) PWR_MGMT_1
                (to_uint8 (Z.land (bus w PWR_MGMT_1) (Z.lnot (Z.shiftl 1 4)))))
             ((trace w ++ [EvRead PWR_MGMT_1 1]) ++
              [EvWrite PWR_MGMT_1
                 (to_uint8 (Z.land (bus w PWR_MGMT_1) (Z.lnot (Z.shiftl 1 4))))])
             (accel_offset w) (gyro_offset w)).
Proof. reflexivity. Qed.

Lemma regfile_DisableTemperatureSensor w :
  MPU6500_DisableTemperatureSensor w =
    (HAL_OK,
     mkWorld (RegFile.store (bus w) PWR_MGMT_1
                (to_uint8 (Z.lor (bus w PWR_MGMT_1) (Z.shiftl 1 4))))
             ((trace w ++ [EvRead PWR_MGMT_1 1]) ++
              [EvWrite PWR_MGMT_1 (to_uint8 (Z.lor (bus w PWR_MGMT_1) (Z.shiftl 1 4)))])
             (accel_offset w) (gyro_offset w)).
Proof. reflexivity. Qed.

Lemma regfile_write w (reg v : Z) :
  MPU6500_WriteRegister w reg v =
    (HAL_OK,
     mkWorld (RegFile.store (bus w) reg v) (trace w ++ [EvWrite reg v])
             (accel_offset w) (gyro_offset w)).
Proof. reflexivity. Qed.

Lemma store_other (b : Z -> Z) (reg v r : Z) : r <> reg -> RegFile.store b reg v r = b r.
Proof. intros Hr. unfold RegFile.store. destruct (Z.eqb_spec r reg); [contradiction | reflexivity]. Qed.

Lemma store_twice (b : Z -> Z) (reg v v' r : Z) :
  RegFile.store (RegFile.store b reg v) reg v' r = RegFile.store b reg v' r.
Proof. unfold RegFile.store. destruct (r =? reg); reflexivity. Qed.

(** Settle an equation between byte expressions of a byte [v] by trying all
    256 values. *)
Ltac byte_cases v Hv :=
  apply Z.eqb_eq; revert Hv; generalize v; intros x Hx; pattern x;
  match goal with
  | |- (fun y => @?B y = true) x => apply (uint8_cases B); [vm_compute; reflexivity | exact Hx]
  end.

(** X6: on the power-management register the last of MPU6500_Sleep and
    MPU6500_WakeUp wins, whatever came before: WakeUp twice is WakeUp once,
    Sleep after WakeUp leaves the device as Sleep alone does, and WakeUp
    after Sleep as WakeUp alone does. *)
Theorem power_state_last_call_wins w :
  is_uint8 (bus w PWR_MGMT_1) ->
  let sleep w := snd (MPU6500_Sleep w) in
  let wake w := snd (MPU6500_WakeUp w) in
  (forall r, bus (wake (wake w)) r = bus (wake w) r) /\
  (forall r, bus (sleep (wake w)) r = bus (sleep w) r) /\
  (forall r, bus (wake (sleep w)) r = bus (wake w) r) /\
  Z.testbit (bus (sleep w) PWR_MGMT_1) 6 = true /\
  Z.testbit (bus (wake w) PWR_MGMT_1) 6 = false.
Proof.
  intros Hv. cbv zeta.
  rewrite ?regfile_Sleep, ?regfile_WakeUp. cbn [snd bus].
  rewrite ?regfile_Sleep, ?regfile_WakeUp. cbn [snd bus].
  rewrite !store_same.
  assert (H1 : to_uint8 (Z.land (to_uint8 (Z.land (bus w PWR_MGMT_1) (Z.lnot 64))) (Z.lnot 64))
               = to_uint8 (Z.land (bus w PWR_MGMT_1) (Z.lnot 64)))
    by (byte_cases (bus w PWR_MGMT_1) Hv).
  assert (H2 : to_uint8 (Z.lor (to_uint8 (Z.land (bus w PWR_MGMT_1) (Z.lnot 64))) 64)
               = to_uint8 (Z.lor (bus w PWR_MGMT_1) 64))
    by (byte_cases (bus w PWR_MGMT_1) Hv).
  assert (H3 : to_uint8 (Z.land (to_uint8 (Z.lor (bus w PWR_MGMT_1) 64)) (Z.lnot 64))
               = to_uint8 (Z.land (bus w PWR_MGMT_1) (Z.lnot 64)))
    by (byte_cases (bus w PWR_MGMT_1) Hv).
  rewrite H1, H2, H3.
  repeat split; try (intros r; apply store_twice).
  - apply (uint8_cases (fun v => Z.testbit (to_uint8 (Z.lor v 64)) 6));
      [vm_compute; reflexivity | assumption].
  - apply negb_true_iff.
    apply (uint8_cases (fun v => negb (Z.testbit (to_uint8 (Z.land v (Z.lnot 64))) 6)));
      [vm_compute; reflexivity | assumption].
Qed.

(** X7: the temperature-sensor helpers act on bit 4 alone and independently
    of the sleep bit: Disable sets bit 4 and Enable clears it, leaving the
    other bits; Enable after Disable leaves the device as Enable alone does;
    and MPU6500_Sleep and MPU6500_EnableTemperatureSensor can be called in
    either order with the same final registers. *)
Theorem temperature_bit_independent w :
  is_uint8 (bus w PWR_MGMT_1) ->
  let v := bus w PWR_MGMT_1 in
  let enable w := snd (MPU6500_EnableTemperatureSensor w) in
  let disable w := snd (MPU6500_DisableTemperatureSensor w) in
  let sleep w := snd (MPU6500_Sleep w) in
  (forall i, Z.testbit (bus (enable w) PWR_MGMT_1) i = Z.testbit v i && negb (i =? 4)) /\
  (forall i, Z.testbit (bus (disable w) PWR_MGMT_1) i = Z.testbit v i || (i =? 4)) /\
  (forall r, bus (enable (disable w)) r = bus (enable w) r) /\
  (forall r, bus (sleep (enable w)) r = bus (enable (sleep w)) r).
Proof.
  intros Hv. cbv zeta.
  destruct (write_back_bytes _ Hv) as (Hs & Hw & Hd & He).
  rewrite ?regfile_Sleep, ?regfile_EnableTemperatureSensor, ?regfile_DisableTemperatureSensor.
  cbn [snd bus].
  rewrite ?regfile_Sleep, ?regfile_EnableTemperatureSensor, ?regfile_DisableTemperatureSensor.
  cbn [snd bus].
  rewrite !store_same.
  assert (H1 : to_uint8 (Z.land (to_uint8 (Z.lor (bus w PWR_MGMT_1) (Z.shiftl 1 4)))
                                (Z.lnot (Z.shiftl 1 4)))
               = to_uint8 (Z.land (bus w PWR_MGMT_1) (Z.lnot (Z.shiftl 1 4))))
    by (byte_cases (bus w PWR_MGMT_1) Hv).
  assert (H2 : to_uint8 (Z.lor (to_uint8 (Z.land (bus w PWR_MGMT_1) (Z.lnot (Z.shiftl 1 4)))) 64)
               = to_uint8 (Z.land (to_uint8 (Z.lor (bus w PWR_MGMT_1) 64))
                                  (Z.lnot (Z.shiftl 1 4))))
    by (byte_cases (bus w PWR_MGMT_1) Hv).
  rewrite H1, H2, He, Hd.
  repeat split.
  - intros i. change 16 with (2 ^ 4). apply clear_bit_bits. lia.
  - intros i. change 16 with (2 ^ 4). apply set_bit_bits. lia.
  - intros r. apply store_twice.
  - intros r. rewrite !store_twice. reflexivity.
Qed.

(** X8: each register-writing operation changes no register but its own:
    the power-management register for Sleep, WakeUp and the temperature
    helpers, the second power-management register (set to 0x07) for
    DisableGyro, the interrupt-enable register for the data-ready toggles. *)
Theorem writes_touch_one_register w (r : Z) :
  (r <> PWR_MGMT_1 ->
   bus (snd (MPU6500_Sleep w)) r = bus w r /\
   bus (snd (MPU6500_WakeUp w)) r = bus w r /\
   bus (snd (MPU6500_EnableTemperatureSensor w)) r = bus w r /\
   bus (snd (MPU6500_DisableTemperatureSensor w)) r = bus w r) /\
  (r <> PWR_MGMT_2 -> bus (snd (MPU6500_DisableGyro w)) r = bus w r) /\
  bus (snd (MPU6500_DisableGyro w)) PWR_MGMT_2 = 0x07 /\
  (r <> INT_ENABLE ->
   bus (snd (MPU6500_EnableDataReadyInterrupts w)) r = bus w r /\
   bus (snd (MPU6500_DisableDataReadyInterrupts w)) r = bus w r).
Proof.
  rewrite regfile_Sleep, regfile_WakeUp, regfile_EnableTemperatureSensor,
    regfile_DisableTemperatureSensor.
  unfold MPU6500_DisableGyro, MPU6500_EnableDataReadyInterrupts,
    MPU6500_DisableDataReadyInterrupts.
  rewrite !regfile_write. cbn [snd bus].
  split; [intros Hr; repeat split; apply store_other; assumption |].
  split; [intros Hr; apply store_other; assumption |].
  split; [apply store_same |].
  intros Hr; split; apply store_other; assumption.
Qed.

Section Initialized.

Context {build : Build}.




End Initialized.

End RegisterFileAlgebra.

(** ** Further properties: the initialization sequence *)

Section InitSequence.

Context {build : Build}.

Lemma Forall_firstn_of {A : Type} (P : A -> Prop) (n : nat) (l : list A) :
  Forall P l -> Forall P (firstn n l).
Proof.
  revert l. induction n as [| n IH]; intros l Hl; [constructor |].
  destruct Hl as [| x l Hx Hl]; [constructor |].
  cbn [firstn]. constructor; [assumption | apply IH; assumption].
Qed.

Lemma init_events_avoid_interrupt_enable (v : Z) :
  Forall (fun e => event_register e <> Some INT_ENABLE) (init_events v).
Proof. unfold init_events. repeat constructor; cbv; discriminate. Qed.

(** One scripted HAL call of the driver, the head of the script known. *)
Ltac scripted_call :=
  match goal with
  | |- context [mem_write ?w ?r ?v] =>
      rewrite (script_write_any w r v _ _ _ eq_refl)
  | |- context [mem_read ?w ?r ?n ?buf] =>
      rewrite (script_read_any w r n buf _ _ _ eq_refl)
  end; cbv beta iota; cbn [failed bus trace accel_offset gyro_offset].

(** X10: when the transport answers all nine register accesses, MPU6500_Init
    returns HAL_OK after exactly the ten HAL calls of the sequence, in order,
    with the 100 ms delay between the reset write and the clock write; it
    consumes nothing further from the transport and keeps the offsets. *)
Theorem Init_succeeds (w : World (list Script.Resp)) (pre : list (list Z))
        (rest : list Script.Resp) :
  length pre = 9%nat ->
  bus w = map Script.ok pre ++ rest ->
  MPU6500_Init w =
    (HAL_OK,
     mkWorld rest (trace w ++ init_events (nth 0 (nth 6 pre []) 0))
             (accel_offset w) (gyro_offset w)).
Proof.
  intros Hlen Hbus.
  destruct w as [b tr ao go]. cbn [bus] in Hbus. subst b.
  cbn [trace accel_offset gyro_offset].
  do 9 (destruct pre as [| ? pre]; [discriminate Hlen |]).
  destruct pre; [| discriminate Hlen].
  unfold MPU6500_Init, MPU6500_Reset, MPU6500_ConfigureClock, MPU6500_ConfigureAccel,
    MPU6500_ConfigureGyro, MPU6500_EnableTemperatureSensor, MPU6500_ConfigureInterrupts,
    MPU6500_ReadRegister, MPU6500_WriteRegister, delay.
  cbn [map app Script.ok].
  repeat scripted_call.
  cbn [nth HAL_Delay Script.hal Script.pause]. unfold init_events.
  rewrite <- !app_assoc. reflexivity.
Qed.

End InitSequence.

Section InitAnyTransport.

Context {Bus : Type} {hal : I2C_HAL Bus} {build : Build}.

(** Split on the outcome of the next HAL call. *)
Ltac next_call :=
  match goal with
  | |- context [HAL_I2C_Mem_Write ?b ?d ?r ?data] =>
      let st := fresh "st" in
      let b' := fresh "b" in
      destruct (HAL_I2C_Mem_Write b d r data) as [st b']; destruct st
  | |- context [HAL_I2C_Mem_Read ?b ?d ?r ?n ?buf] =>
      let st := fresh "st" in
      let b' := fresh "b" in
      let buffer := fresh "buffer" in
      destruct (HAL_I2C_Mem_Read b d r n buf) as [[st buffer] b']; destruct st
  end;
  cbv beta iota; cbn [failed fst snd bus trace accel_offset gyro_offset].

(** Close a branch that made the first [n] calls of the sequence. *)
Ltac made_calls n v :=
  exists n, v;
  (split; [cbn [firstn init_events]; rewrite <- ?app_assoc; reflexivity |]);
  (split; [lia |]);
  (split; [intros Hok; first [discriminate Hok | reflexivity] |]);
  (split; [split; reflexivity |]);
  apply Forall_firstn_of, init_events_avoid_interrupt_enable.

(** X11: on every transport, whatever it answers, the HAL calls MPU6500_Init
    makes are the first n of the ten calls of the sequence, for some n from
    1 to 10, and all ten when it returns HAL_OK; it never accesses the
    interrupt-enable register (data-ready interrupts stay as they were) and
    never changes an offset. *)
Theorem Init_log_is_prefix (w : World Bus) :
  exists (n : nat) (v : Z),
    trace (snd (MPU6500_Init w)) = trace w ++ firstn n (init_events v) /\
    (1 <= n <= 10)%nat /\
    (fst (MPU6500_Init w) = HAL_OK -> n = 10%nat) /\
    same_offsets w (snd (MPU6500_Init w)) /\
    Forall (fun e => event_register e <> Some INT_ENABLE) (firstn n (init_events v)).
Proof.
  destruct w as [b0 tr ao go].
  unfold same_offsets, MPU6500_Init, MPU6500_Reset, MPU6500_ConfigureClock,
    MPU6500_ConfigureAccel, MPU6500_ConfigureGyro, MPU6500_EnableTemperatureSensor,
    MPU6500_ConfigureInterrupts, MPU6500_ReadRegister, MPU6500_WriteRegister,
    delay, mem_write, mem_read.
  cbn [bus trace accel_offset gyro_offset].
  next_call; [| made_calls 1%nat 0 ..].
  next_call; [| made_calls 3%nat 0 ..].
  next_call; [| made_calls 4%nat 0 ..].
  next_call; [| made_calls 5%nat 0 ..].
  next_call; [| made_calls 6%nat 0 ..].
  next_call; [| made_calls 7%nat 0 ..].
  next_call; [| made_calls 8%nat 0 ..].
  next_call; [| made_calls 9%nat (nth 0 buffer 0) ..].
  next_call; made_calls 10%nat (nth 0 buffer 0).
Qed.

End InitAnyTransport.

(** ** Further properties: offset calibration *)

Section CalibrationSums.

Context {build : Build}.

Lemma one_g_raw_range : is_int16 one_g_raw.
Proof. unfold one_g_raw. apply to_int16_range. Qed.

Lemma to_int32_exact (z : Z) : Z.abs z <= 2147483647 -> to_int32 z = z.
Proof. intros Hz. apply to_int32_small. lia. Qed.

Lemma axis_sum_cons (i : nat) (buffer : list Z) (buffers : list (list Z)) :
  axis_sum i (buffer :: buffers) = be16 buffer i + axis_sum i buffers.
Proof. reflexivity. Qed.

(** The loop on successfully answered sample pairs adds every decoded value
    to its running sum; with at most 32768 samples in all no sum leaves the
    32-bit range. *)
Lemma calibration_loop_sums (pairs : list (list Z * list Z)) :
  forall (k : Z) (w : World (list Script.Resp)) (ax ay az gx gy gz : Z)
         (rest : list Script.Resp),
    0 <= k -> k + Z.of_nat (length pairs) <= 32768 ->
    Z.abs ax <= k * 65536 -> Z.abs ay <= k * 65536 -> Z.abs az <= k * 65536 ->
    Z.abs gx <= k * 65536 -> Z.abs gy <= k * 65536 -> Z.abs gz <= k * 65536 ->
    bus w = sample_script pairs ++ rest ->
    calibration_loop (length pairs) w (mkVec3 ax ay az) (mkVec3 gx gy gz) =
      (HAL_OK,
       mkWorld rest (trace w ++ sampling_events (length pairs))
               (accel_offset w) (gyro_offset w),
       mkVec3 (ax + axis_sum 0 (map fst pairs))
              (ay + axis_sum 2 (map fst pairs))
              (az + (axis_sum 4 (map fst pairs) - Z.of_nat (length pairs) * one_g_raw)),
       mkVec3 (gx + axis_sum 0 (map snd pairs))
              (gy + axis_sum 2 (map snd pairs))
              (gz + axis_sum 4 (map snd pairs))).
Proof.
  induction pairs as [| [a g] pairs IH];
    intros k w ax ay az gx gy gz rest Hk Hkn Hax Hay Haz Hgx Hgy Hgz Hbus.
  - cbn [length calibration_loop map axis_sum fold_right sampling_events repeat concat
           Z.of_nat].
    cbn [sample_script map concat app] in Hbus.
    rewrite app_nil_r, Z.mul_0_l, Z.sub_0_r, !Z.add_0_r.
    destruct w as [b tr ao go]. cbn [bus] in Hbus. subst b. reflexivity.
  - cbn [sample_script map concat app fst snd] in Hbus.
    change (concat (map (fun p => [Script.ok (fst p); Script.ok (snd p)]) pairs))
      with (sample_script pairs) in Hbus.
    cbn [length calibration_loop]. unfold MPU6500_ReadRawAccel, MPU6500_ReadRawGyro.
    rewrite (script_read_ok _ _ _ _ _ _ Hbus). cbn [failed].
    erewrite script_read_ok by reflexivity. cbn [failed v0 v1 v2].
    pose proof (be16_range a 0) as Rax. pose proof (be16_range a 2) as Ray.
    pose proof (be16_range a 4) as Raz. pose proof (be16_range g 0) as Rgx.
    pose proof (be16_range g 2) as Rgy. pose proof (be16_range g 4) as Rgz.
    pose proof one_g_raw_range as Rone.
    unfold is_int16 in *.
    cbn [length] in Hkn. rewrite Nat2Z.inj_succ in Hkn.
    rewrite !to_int32_exact by lia.
    match goal with
    | |- context [calibration_loop (length pairs) ?w1 (mkVec3 ?a1 ?a2 ?a3)
                    (mkVec3 ?g1 ?g2 ?g3)] =>
        rewrite (IH (k + 1) w1 a1 a2 a3 g1 g2 g3 rest); try lia; [| reflexivity]
    end.
    unfold delay. cbn [trace accel_offset gyro_offset map fst snd length].
    rewrite !axis_sum_cons.
    change (sampling_events (S (length pairs)))
      with ([EvRead ACCEL_XOUT_H 6; EvRead GYRO_XOUT_H 6; EvDelay 5]
              ++ sampling_events (length pairs)).
    rewrite <- !app_assoc. cbn [app].
    rewrite Nat2Z.inj_succ.
    f_equal; [f_equal |]; f_equal; lia.
Qed.

(** X12: when the transport answers the wake-up and then every raw read of
    the loop (at most 32768 samples), the calibration returns HAL_OK after
    the two wake-up calls and, per sample, an accelerometer read, a gyroscope
    read and a 5 ms delay; each offset becomes the 16-bit result of the
    unsigned division of the exact axis sum (accelerometer Z: minus the 1 g
    count per sample) by the sample count, whatever the offsets were. *)
Theorem calibration_offsets (w : World (list Script.Resp)) (samples : Z) (v wr : list Z)
        (pairs : list (list Z * list Z)) (rest : list Script.Resp) :
  0 < samples <= 32768 ->
  Z.to_nat samples = length pairs ->
  bus w = Script.ok v :: (HAL_OK, wr) :: sample_script pairs ++ rest ->
  MPU6500_InitOffsetCalibration w samples =
    (HAL_OK,
     mkWorld rest
       (trace w ++
        [EvRead PWR_MGMT_1 1;
         EvWrite PWR_MGMT_1 (to_uint8 (Z.land (nth 0 v 0) (Z.lnot 64)))] ++
        sampling_events (length pairs))
       (mkVec3 (mean16 (axis_sum 0 (map fst pairs)) samples)
               (mean16 (axis_sum 2 (map fst pairs)) samples)
               (mean16 (axis_sum 4 (map fst pairs) - samples * one_g_raw) samples))
       (mkVec3 (mean16 (axis_sum 0 (map snd pairs)) samples)
               (mean16 (axis_sum 2 (map snd pairs)) samples)
               (mean16 (axis_sum 4 (map snd pairs)) samples))).
Proof.
  intros Hn Hlen Hbus.
  unfold MPU6500_InitOffsetCalibration.
  destruct (Z.eqb_spec samples 0) as [-> | _]; [lia |].
  unfold MPU6500_WakeUp, MPU6500_ReadRegister, MPU6500_WriteRegister.
  rewrite (script_read_ok _ _ _ _ _ _ Hbus). cbn [failed].
  erewrite script_write_any by reflexivity. cbn [failed].
  rewrite Hlen. unfold zero3.
  rewrite (calibration_loop_sums pairs 0 _ 0 0 0 0 0 0 rest); try lia; [| reflexivity].
  cbn [failed fst snd bus trace accel_offset gyro_offset nth].
  rewrite !Z.add_0_l. rewrite <- Hlen, Z2Nat.id by lia.
  rewrite <- !app_assoc. reflexivity.
Qed.

End CalibrationSums.

(** X13: the mean the driver stores is computed by an unsigned 32-bit
    division.  For a non-negative sum whose quotient fits 16 bits it is the
    integer mean sum / count; for a negative sum it is the low 16 bits of
    (sum + 2^32) / count. *)
Theorem mean16_unsigned_division (sum count : Z) :
  0 < count -> -2147483648 <= sum <= 2147483647 ->
  (0 <= sum -> Z.quot sum count <= 32767 -> mean16 sum count = Z.quot sum count) /\
  (sum < 0 -> mean16 sum count = to_int16 (Z.quot (sum + 4294967296) count)).
Proof.
  intros Hc Hs. unfold mean16, to_uint32, udiv. split.
  - intros Hpos Hq. rewrite Z.mod_small by lia.
    apply to_int16_small. unfold is_int16.
    pose proof (Z.quot_pos sum count Hpos ltac:(lia)). lia.
  - intros Hneg.
    replace (sum mod 4294967296) with (sum + 4294967296); [reflexivity |].
    symmetry. rewrite <- (Z.mod_add sum 1 4294967296) by lia.
    apply Z.mod_small. lia.
Qed.

Section CalibrationInvariant.

Context {Bus : Type} {hal : I2C_HAL Bus} {build : Build}.

Lemma mean16_range (sum count : Z) : is_int16 (mean16 sum count).
Proof. unfold mean16. apply to_int16_range. Qed.

(** X14: on every transport, after MPU6500_InitOffsetCalibration returns
    HAL_OK all six offsets are 16-bit values, and if they were 16-bit values
    before the call they are so after it, whatever it returns. *)
Theorem calibration_keeps_offsets_int16 (w : World Bus) (samples : Z) :
  (fst (MPU6500_InitOffsetCalibration w samples) = HAL_OK ->
   offsets_int16 (snd (MPU6500_InitOffsetCalibration w samples))) /\
  (offsets_int16 w -> offsets_int16 (snd (MPU6500_InitOffsetCalibration w samples))).
Proof.
  unfold MPU6500_InitOffsetCalibration.
  destruct (samples =? 0); [split; [discriminate | trivial] |].
  pose proof (WakeUp_offsets w) as [Hwa Hwg].
  destruct (MPU6500_WakeUp w) as [status w1]. cbn [snd] in Hwa, Hwg.
  destruct (failed status) eqn:Hst.
  - cbn [fst snd]. split.
    + intros ->. discriminate Hst.
    + unfold offsets_int16. rewrite Hwa, Hwg. trivial.
  - pose proof (calibration_loop_offsets (Z.to_nat samples) w1 zero3 zero3) as [Hla Hlg].
    destruct (calibration_loop (Z.to_nat samples) w1 zero3 zero3)
      as [[[status' w2] accel_sum] gyro_sum].
    cbn [fst snd] in Hla, Hlg.
    destruct (failed status') eqn:Hst'; cbn [fst snd].
    + split.
      * intros ->. discriminate Hst'.
      * unfold offsets_int16. rewrite Hla, Hlg, Hwa, Hwg. trivial.
    + assert (Hok : offsets_int16
                      (mkWorld (bus w2) (trace w2)
                         (mkVec3 (mean16 (v0 accel_sum) samples)
                                 (mean16 (v1 accel_sum) samples)
                                 (mean16 (v2 accel_sum) samples))
                         (mkVec3 (mean16 (v0 gyro_sum) samples)
                                 (mean16 (v1 gyro_sum) samples)
                                 (mean16 (v2 gyro_sum) samples))))
        by (unfold offsets_int16; cbn [accel_offset gyro_offset v0 v1 v2];
            repeat split; apply mean16_range).
      split; intros _; exact Hok.
Qed.

End CalibrationInvariant.

(** ** Further properties: calibrating and then reading a device at rest *)

Lemma valid_build_constants (build : Build) :
  valid_build build ->
  0 <= one_g_raw <= 32767 /\
  div (of_Z 0) MPU6500_ACCEL_SENS = zero /\
  div (of_Z one_g_raw) MPU6500_ACCEL_SENS = one /\
  div (of_Z 0) MPU6500_GYRO_SENS = zero.
Proof.
  destruct build as [accel_config gyro_config].
  unfold valid_build. cbn [MPU6500_DEFAULT_ACCEL_CONFIG MPU6500_DEFAULT_GYRO_CONFIG].
  intros [Ha Hg].
  destruct Ha as [<- | [<- | [<- | [<- | []]]]];
    destruct Hg as [<- | [<- | [<- | [<- | []]]]];
    vm_compute; repeat split; congruence.
Qed.

Section DeviceAtRest.

Context {build : Build}.

Implicit Type w : World (Z -> Z).

Lemma regfile_ReadRawAccel w (out : Vec3 Z) :
  MPU6500_ReadRawAccel w out =
    (HAL_OK,
     mkVec3 (be16 (sensor_block (bus w) ACCEL_XOUT_H) 0)
            (be16 (sensor_block (bus w) ACCEL_XOUT_H) 2)
            (be16 (sensor_block (bus w) ACCEL_XOUT_H) 4),
     mkWorld (bus w) (trace w ++ [EvRead ACCEL_XOUT_H 6]) (accel_offset w) (gyro_offset w)).
Proof. reflexivity. Qed.

Lemma regfile_ReadRawGyro w (out : Vec3 Z) :
  MPU6500_ReadRawGyro w out =
    (HAL_OK,
     mkVec3 (be16 (sensor_block (bus w) GYRO_XOUT_H) 0)
            (be16 (sensor_block (bus w) GYRO_XOUT_H) 2)
            (be16 (sensor_block (bus w) GYRO_XOUT_H) 4),
     mkWorld (bus w) (trace w ++ [EvRead GYRO_XOUT_H 6]) (accel_offset w) (gyro_offset w)).
Proof. reflexivity. Qed.

Lemma accumulate_equal (k x : Z) :
  0 <= k -> k + 1 <= 65536 -> 0 <= x <= 32767 -> to_int32 (k * x + x) = (k + 1) * x.
Proof. intros Hk Hk1 Hx. rewrite to_int32_small by nia. lia. Qed.

(** On the register file every iteration reads the same two blocks. *)
Lemma regfile_calibration_loop (a g : list Z) (n : nat) :
  forall (k : Z) w,
    sensor_block (bus w) ACCEL_XOUT_H = a ->
    sensor_block (bus w) GYRO_XOUT_H = g ->
    0 <= k -> k + Z.of_nat n <= 65536 ->
    0 <= be16 a 0 -> 0 <= be16 a 2 -> 0 <= one_g_raw <= be16 a 4 ->
    0 <= be16 g 0 -> 0 <= be16 g 2 -> 0 <= be16 g 4 ->
    exists tr,
      calibration_loop n w
        (mkVec3 (k * be16 a 0) (k * be16 a 2) (k * (be16 a 4 - one_g_raw)))
        (mkVec3 (k * be16 g 0) (k * be16 g 2) (k * be16 g 4))
      = (HAL_OK,
         mkWorld (bus w) tr (accel_offset w) (gyro_offset w),
         mkVec3 ((k + Z.of_nat n) * be16 a 0) ((k + Z.of_nat n) * be16 a 2)
                ((k + Z.of_nat n) * (be16 a 4 - one_g_raw)),
         mkVec3 ((k + Z.of_nat n) * be16 g 0) ((k + Z.of_nat n) * be16 g 2)
                ((k + Z.of_nat n) * be16 g 4)).
Proof.
  induction n as [| n IH]; intros k w Ha Hg Hk Hkn Hax Hay Haz Hgx Hgy Hgz.
  - exists (trace w). cbn [calibration_loop Z.of_nat]. rewrite !Z.add_0_r.
    destruct w; reflexivity.
  - cbn [calibration_loop].
    rewrite regfile_ReadRawAccel. cbn [failed].
    rewrite regfile_ReadRawGyro. cbn [failed bus v0 v1 v2].
    rewrite Ha, Hg.
    pose proof (be16_range a 0) as [_ Uax]. pose proof (be16_range a 2) as [_ Uay].
    pose proof (be16_range a 4) as [_ Uaz]. pose proof (be16_range g 0) as [_ Ugx].
    pose proof (be16_range g 2) as [_ Ugy]. pose proof (be16_range g 4) as [_ Ugz].
    rewrite Nat2Z.inj_succ in Hkn.
    rewrite !accumulate_equal by lia.
    match goal with
    | |- context [calibration_loop n ?w1 _ _] =>
        destruct (IH (k + 1) w1) as [tr Hloop]; try assumption; try lia
    end.
    exists tr. rewrite Hloop.
    replace (k + 1 + Z.of_nat n) with (k + Z.of_nat (S n)) by lia.
    reflexivity.
Qed.

(** X15: a device at rest, modelled by the register file, whose raw values
    are non-negative (accelerometer Z at least the 1 g count): after a
    calibration with up to 65536 samples on any accepted build, the offsets
    are the raw values (Z minus the 1 g count), and reading the same device
    then gives accelerations 0.0, 0.0, 1.0 g and angular rates 0.0. *)
Theorem calibrate_then_read w (samples : Z) (out : Vec3 float32) :
  valid_build build ->
  0 < samples <= 65536 ->
  let a := sensor_block (bus w) ACCEL_XOUT_H in
  let g := sensor_block (bus w) GYRO_XOUT_H in
  0 <= be16 a 0 -> 0 <= be16 a 2 -> one_g_raw <= be16 a 4 ->
  0 <= be16 g 0 -> 0 <= be16 g 2 -> 0 <= be16 g 4 ->
  let calibrated := snd (MPU6500_InitOffsetCalibration w samples) in
  fst (MPU6500_InitOffsetCalibration w samples) = HAL_OK /\
  accel_offset calibrated = mkVec3 (be16 a 0) (be16 a 2) (be16 a 4 - one_g_raw) /\
  gyro_offset calibrated = mkVec3 (be16 g 0) (be16 g 2) (be16 g 4) /\
  fst (MPU6500_ReadAccel calibrated out) = (HAL_OK, mkVec3 zero zero one) /\
  fst (MPU6500_ReadGyro calibrated out) = (HAL_OK, mkVec3 zero zero zero).
Proof.
  intros Hbuild Hn a g Hax Hay Haz Hgx Hgy Hgz.
  destruct (valid_build_constants build Hbuild) as (Hone & Hza & Hoa & Hzg).
  pose proof (be16_range a 0) as [_ Uax]. pose proof (be16_range a 2) as [_ Uay].
  pose proof (be16_range a 4) as [_ Uaz]. pose proof (be16_range g 0) as [_ Ugx].
  pose proof (be16_range g 2) as [_ Ugy]. pose proof (be16_range g 4) as [_ Ugz].
  assert (Hcal : exists tr,
             MPU6500_InitOffsetCalibration w samples =
               (HAL_OK,
                mkWorld (RegFile.store (bus w) PWR_MGMT_1
                           (to_uint8 (Z.land (bus w PWR_MGMT_1) (Z.lnot 64))))
                        tr
                        (mkVec3 (be16 a 0) (be16 a 2) (be16 a 4 - one_g_raw))
                        (mkVec3 (be16 g 0) (be16 g 2) (be16 g 4)))).
  { unfold MPU6500_InitOffsetCalibration.
    destruct (Z.eqb_spec samples 0) as [-> | _]; [lia |].
    rewrite regfile_WakeUp. cbn [failed].
    match goal with
    | |- context [calibration_loop ?n ?w1 _ _] =>
        destruct (regfile_calibration_loop a g n 0 w1) as [tr Hloop];
          try reflexivity; try assumption; try lia
    end.
    cbn [Z.mul] in Hloop. unfold zero3. rewrite Hloop. cbn [failed bus trace v0 v1 v2].
    rewrite Z.add_0_l, Z2Nat.id by lia.
    rewrite !mean16_of_equal_samples by lia.
    exists tr. reflexivity. }
  destruct Hcal as [tr Hcal]. cbv zeta. rewrite Hcal. cbn [fst snd accel_offset gyro_offset].
  split; [reflexivity |]. split; [reflexivity |]. split; [reflexivity |].
  unfold MPU6500_ReadAccel, MPU6500_ReadGyro, mem_read.
  cbn [HAL_I2C_Mem_Read RegFile.hal RegFile.read bus failed fst accel_offset gyro_offset
         v0 v1 v2].
  change (map (fun i => RegFile.store (bus w) PWR_MGMT_1
                          (to_uint8 (Z.land (bus w PWR_MGMT_1) (Z.lnot 64)))
                          (ACCEL_XOUT_H + Z.of_nat i)) (seq 0 6)) with a.
  change (map (fun i => RegFile.store (bus w) PWR_MGMT_1
                          (to_uint8 (Z.land (bus w PWR_MGMT_1) (Z.lnot 64)))
                          (GYRO_XOUT_H + Z.of_nat i)) (seq 0 6)) with g.
  rewrite !Z.sub_diag.
  replace (be16 a 4 - (be16 a 4 - one_g_raw)) with one_g_raw by lia.
  rewrite (to_int16_small one_g_raw) by (unfold is_int16; lia).
  change (to_int16 0) with 0.
  rewrite Hza, Hoa, Hzg. split; reflexivity.
Qed.

End DeviceAtRest.

(** ** Further properties: the byte-pair decoding *)

(** X18: the driver's combination of a byte pair is one-to-one and reaches
    every 16-bit value: two byte pairs decode to the same raw value only if
    they are the same bytes, and every [int16_t] is the decoding of some pair. *)
Theorem byte_pair_decoding_bijective :
  (forall hi lo hi' lo',
      is_uint8 hi -> is_uint8 lo -> is_uint8 hi' -> is_uint8 lo' ->
      be16 [hi; lo] 0 = be16 [hi'; lo'] 0 -> hi = hi' /\ lo = lo') /\
  (forall s, is_int16 s ->
      exists hi lo, is_uint8 hi /\ is_uint8 lo /\ be16 [hi; lo] 0 = s).
Proof.
  split.
  - intros hi lo hi' lo' Hhi Hlo Hhi' Hlo'. unfold be16. cbn [nth].
    rewrite !be16_pair by assumption.
    unfold be_int16_spec, is_uint8 in *. cbv zeta.
    destruct (Z.ltb_spec (256 * hi + lo) 32768), (Z.ltb_spec (256 * hi' + lo') 32768); lia.
  - intros s [Hlo Hhi].
    exists ((s mod 65536) / 256), ((s mod 65536) mod 256).
    pose proof (Z.mod_pos_bound s 65536 ltac:(lia)) as Hu.
    pose proof (Z.mod_pos_bound (s mod 65536) 256 ltac:(lia)) as Hl.
    pose proof (Z.div_mod (s mod 65536) 256 ltac:(lia)) as Hdm.
    assert (Hh : is_uint8 (s mod 65536 / 256)).
    { unfold is_uint8. split; [apply Z.div_pos; lia |].
      apply Z.div_lt_upper_bound; lia. }
    split; [exact Hh |]. split; [exact Hl |].
    unfold be16. cbn [nth]. rewrite be16_pair by assumption.
    unfold be_int16_spec. cbv zeta. rewrite <- Hdm.
    assert (Hmod : s mod 65536 = if s <? 0 then s + 65536 else s).
    { destruct (Z.ltb_spec s 0) as [Hneg | Hpos].
      - rewrite <- (Z.mod_add s 1 65536) by lia. apply Z.mod_small. lia.
      - apply Z.mod_small. lia. }
    rewrite Hmod.
    destruct (Z.ltb_spec s 0), (Z.ltb_spec (s + 65536) 32768), (Z.ltb_spec s 32768); lia.
Qed.

(** ** Further properties: the diagnostic dump *)

Lemma digits_free_of_newline (d : Decimal.uint) :
  free_of newline_char (NilEmpty.string_of_uint d) = true.
Proof. induction d; cbn [NilEmpty.string_of_uint free_of]; try rewrite IHd; reflexivity. Qed.

Lemma print_int_free_of_newline (z : Z) : free_of newline_char (print_int z) = true.
Proof.
  unfold print_int, NilZero.string_of_int, NilZero.string_of_uint.
  destruct (Z.to_int z) as [d | d]; destruct d;
    try reflexivity;
    try (apply (digits_free_of_newline (Decimal.D0 _)) ||
         apply (digits_free_of_newline (Decimal.D1 _)) ||
         apply (digits_free_of_newline (Decimal.D2 _)) ||
         apply (digits_free_of_newline (Decimal.D3 _)) ||
         apply (digits_free_of_newline (Decimal.D4 _)) ||
         apply (digits_free_of_newline (Decimal.D5 _)) ||
         apply (digits_free_of_newline (Decimal.D6 _)) ||
         apply (digits_free_of_newline (Decimal.D7 _)) ||
         apply (digits_free_of_newline (Decimal.D8 _)) ||
         apply (digits_free_of_newline (Decimal.D9 _)));
    cbn [free_of]; apply andb_true_iff; split; try reflexivity;
    first [ apply (digits_free_of_newline (Decimal.D0 _))
          | apply (digits_free_of_newline (Decimal.D1 _))
          | apply (digits_free_of_newline (Decimal.D2 _))
          | apply (digits_free_of_newline (Decimal.D3 _))
          | apply (digits_free_of_newline (Decimal.D4 _))
          | apply (digits_free_of_newline (Decimal.D5 _))
          | apply (digits_free_of_newline (Decimal.D6 _))
          | apply (digits_free_of_newline (Decimal.D7 _))
          | apply (digits_free_of_newline (Decimal.D8 _))
          | apply (digits_free_of_newline (Decimal.D9 _)) ].
Qed.

Lemma print_int_injective (z z' : Z) : print_int z = print_int z' -> z = z'.
Proof.
  unfold print_int. intros Heq.
  assert (Hparse : forall x, NilZero.int_of_string (NilZero.string_of_int (Z.to_int x))
                             = Some (Z.to_int x)).
  { intros x. apply NilZero.isi; destruct x; cbn [Z.to_int]; intros [= H];
      try discriminate H; exact (DecimalPos.Unsigned.to_uint_nonnil _ H). }
  apply DecimalZ.to_int_inj.
  pose proof (Hparse z) as Hz. rewrite Heq, Hparse in Hz. congruence.
Qed.

(** Two texts that agree up to and after their first [c] agree piecewise. *)
Lemma cut_at_first (c : ascii) (s : string) :
  forall (s' r r' : string),
    free_of c s = true -> free_of c s' = true ->
    (s ++ String c r = s' ++ String c r')%string -> s = s' /\ r = r'.
Proof.
  induction s as [| a s IH]; intros s' r r' Hs Hs' Heq; destruct s' as [| a' s'];
    cbn [append free_of] in *.
  - injection Heq as ->. split; reflexivity.
  - injection Heq as <- _. rewrite Ascii.eqb_refl in Hs'. discriminate Hs'.
  - injection Heq as -> _. rewrite Ascii.eqb_refl in Hs. discriminate Hs.
  - injection Heq as -> Heq.
    apply andb_true_iff in Hs as [_ Hs]. apply andb_true_iff in Hs' as [_ Hs'].
    destruct (IH s' r r' Hs Hs' Heq) as [-> ->]. split; reflexivity.
Qed.

Lemma print_line_injective (label : string) (z z' : Z) (rest rest' : string) :
  print_line label z rest = print_line label z' rest' -> z = z' /\ rest = rest'.
Proof.
  unfold print_line. induction label as [| a label IH]; cbn [append]; intros Heq.
  - destruct (cut_at_first newline_char _ _ _ _ (print_int_free_of_newline z)
                (print_int_free_of_newline z') Heq) as [Hz Hr].
    split; [apply print_int_injective; assumption | assumption].
  - injection Heq as Heq. apply IH. assumption.
Qed.

(** X19: MPU6500_PrintOffsets always returns HAL_OK, and the text it writes
    determines all six offsets: two offset states print the same text exactly
    when they are equal. *)
Theorem PrintOffsets_faithful {Bus : Type} (w w' : World Bus) :
  fst (MPU6500_PrintOffsets w) = HAL_OK /\
  (snd (MPU6500_PrintOffsets w) = snd (MPU6500_PrintOffsets w') <->
   accel_offset w = accel_offset w' /\ gyro_offset w = gyro_offset w').
Proof.
  split; [reflexivity |]. split.
  - unfold MPU6500_PrintOffsets. cbn [snd]. intros Heq.
    apply cut_at_first in Heq as [_ Heq]; [| reflexivity | reflexivity].
    apply print_line_injective in Heq as [Hax Heq].
    apply print_line_injective in Heq as [Hay Heq].
    apply print_line_injective in Heq as [Haz Heq].
    apply cut_at_first in Heq as [_ Heq]; [| reflexivity | reflexivity].
    apply print_line_injective in Heq as [Hgx Heq].
    apply print_line_injective in Heq as [Hgy Heq].
    apply print_line_injective in Heq as [Hgz _].
    destruct (accel_offset w), (accel_offset w'), (gyro_offset w), (gyro_offset w').
    cbn [v0 v1 v2] in *. subst. split; reflexivity.
  - intros [Ha Hg]. unfold MPU6500_PrintOffsets. rewrite Ha, Hg. reflexivity.
Qed.

(** ** Further properties: accuracy of the float conversion *)

Lemma forall_bits_sound (k : nat) (f : Z -> bool) :
  forall acc : Z,
    forall_bits k f acc = true ->
    forall u, acc * 2 ^ Z.of_nat k <= u < (acc + 1) * 2 ^ Z.of_nat k -> f u = true.
Proof.
  induction k as [| k IH]; intros acc Hall u Hu.
  - cbn [forall_bits] in Hall. change (2 ^ Z.of_nat 0) with 1 in Hu.
    replace u with acc by lia. exact Hall.
  - cbn [forall_bits] in Hall. apply andb_true_iff in Hall as [Hlo Hhi].
    rewrite Nat2Z.inj_succ, Z.pow_succ_r in Hu by lia.
    pose proof (Z.pow_pos_nonneg 2 (Z.of_nat k) ltac:(lia) ltac:(lia)) as Hpow.
    destruct (Z.lt_ge_cases u ((2 * acc + 1) * 2 ^ Z.of_nat k)) as [Hlt | Hge].
    + apply (IH (2 * acc) Hlo). nia.
    + apply (IH (2 * acc + 1) Hhi). nia.
Qed.

(** A property checked on 1..32768 holds of every magnitude of an
    [int16_t]. *)
Lemma magnitude_cases (f : Z -> bool) :
  forall_bits 15 (fun u => f (u + 1)) 0 = true ->
  forall p, 1 <= p <= 32768 -> f p = true.
Proof.
  intros Hall p [Hlo Hhi].
  pose proof (forall_bits_sound 15 _ 0 Hall (p - 1)) as H.
  cbn beta in H. replace (p - 1 + 1) with p in H by lia.
  apply H. change (2 ^ Z.of_nat 15) with 32768. lia.
Qed.

(** Rounding, integer conversion and division commute with the sign. *)
Lemma binary_round_aux_opp (s : bool) (m e : Z) (l : location) :
  binary_round_aux prec emax (negb s) m e l = SFopp (binary_round_aux prec emax s m e l).
Proof.
  unfold binary_round_aux.
  destruct (shr_fexp prec emax m e l) as [mrs' e'].
  destruct (shr_fexp prec emax _ e' loc_Exact) as [mrs'' e''].
  destruct (shr_m mrs''); [reflexivity | | reflexivity].
  destruct (e'' <=? emax - prec); reflexivity.
Qed.

Lemma of_Z_opp (p : positive) : of_Z (Zneg p) = SFopp (of_Z (Zpos p)).
Proof.
  unfold of_Z, binary_normalize, binary_round.
  destruct (shl_align p 0 _) as [mz ez].
  apply (binary_round_aux_opp false).
Qed.

Lemma div_opp (x : float32) (sy : bool) (my : positive) (ey : Z) :
  div (SFopp x) (S754_finite sy my ey) = SFopp (div x (S754_finite sy my ey)).
Proof.
  unfold div. destruct x as [s | s | | s m e]; cbn [SFopp SFdiv].
  - destruct s, sy; reflexivity.
  - destruct s, sy; reflexivity.
  - reflexivity.
  - destruct (SFdiv_core_binary prec emax (Z.pos m) e (Z.pos my) ey) as [[mz ez] lz].
    replace (xorb (negb s) sy) with (negb (xorb s sy)) by (destruct s, sy; reflexivity).
    apply binary_round_aux_opp.
Qed.

Lemma is_finite_opp (f : float32) : is_finite (SFopp f) = is_finite f.
Proof. destruct f; reflexivity. Qed.

Lemma value_opp (f : float32) : (value (SFopp f) == - value f)%Q.
Proof.
  destruct f as [s | s | | s m e]; cbn [SFopp value]; try reflexivity.
  destruct s; cbn [negb]; change (inject_Z (Z.neg m)) with (- inject_Z (Z.pos m))%Q; ring.
Qed.

(** The sensitivities of the repository build as floats. *)
Lemma repository_sensitivities :
  MPU6500_ACCEL_SENS (build := repository_build) = S754_finite false 8388608 (-10) /\
  MPU6500_GYRO_SENS (build := repository_build) = S754_finite false 8585216 (-17).
Proof. split; vm_compute; reflexivity. Qed.

Lemma accel_exact_magnitudes (p : Z) :
  1 <= p <= 32768 ->
  conversion_exact_check (MPU6500_ACCEL_SENS (build := repository_build)) p = true.
Proof. apply magnitude_cases. vm_compute. reflexivity. Qed.

Lemma gyro_close_magnitudes (p : Z) :
  1 <= p <= 32768 ->
  conversion_check (MPU6500_GYRO_SENS (build := repository_build)) p = true.
Proof. apply magnitude_cases. vm_compute. reflexivity. Qed.

Lemma conversion_exact_check_spec (sens : float32) (d : Z) :
  conversion_exact_check sens d = true ->
  is_finite (div (of_Z d) sens) = true /\
  (value (div (of_Z d) sens) * value sens == inject_Z d)%Q.
Proof.
  unfold conversion_exact_check. cbv zeta. intros H.
  apply andb_true_iff in H as [Hfin Heq].
  split; [assumption | apply Qeq_bool_eq; assumption].
Qed.

Lemma conversion_check_spec (sens : float32) (d : Z) :
  conversion_check sens d = true ->
  is_finite (div (of_Z d) sens) = true /\
  (Qabs (value (div (of_Z d) sens) * value sens - inject_Z d) * inject_Z 16777216
   <= Qabs (inject_Z d))%Q.
Proof.
  unfold conversion_check. cbv zeta. intros H.
  apply andb_true_iff in H as [Hfin Hle].
  split; [assumption | apply Qle_bool_iff; assumption].
Qed.

Lemma accel_exact (d : Z) :
  is_int16 d ->
  is_finite (div (of_Z d) (MPU6500_ACCEL_SENS (build := repository_build))) = true /\
  (value (div (of_Z d) (MPU6500_ACCEL_SENS (build := repository_build)))
   * value (MPU6500_ACCEL_SENS (build := repository_build)) == inject_Z d)%Q.
Proof.
  intros [Hlo Hhi]. destruct d as [| p | p].
  - split; vm_compute; reflexivity.
  - apply conversion_exact_check_spec, accel_exact_magnitudes. lia.
  - destruct (conversion_exact_check_spec _ _ (accel_exact_magnitudes (Z.pos p) ltac:(lia)))
      as [Hfin Hex].
    destruct repository_sensitivities as [Hs _].
    rewrite of_Z_opp. rewrite Hs in *. rewrite div_opp, is_finite_opp.
    split; [exact Hfin |].
    rewrite value_opp.
    change (inject_Z (Z.neg p)) with (- inject_Z (Z.pos p))%Q.
    rewrite <- Hex. ring.
Qed.

Lemma gyro_close (d : Z) :
  is_int16 d ->
  is_finite (div (of_Z d) (MPU6500_GYRO_SENS (build := repository_build))) = true /\
  (Qabs (value (div (of_Z d) (MPU6500_GYRO_SENS (build := repository_build)))
         * value (MPU6500_GYRO_SENS (build := repository_build)) - inject_Z d)
   * inject_Z 16777216 <= Qabs (inject_Z d))%Q.
Proof.
  intros [Hlo Hhi]. destruct d as [| p | p].
  - split; vm_compute; [reflexivity | discriminate].
  - apply conversion_check_spec, gyro_close_magnitudes. lia.
  - destruct (conversion_check_spec _ _ (gyro_close_magnitudes (Z.pos p) ltac:(lia)))
      as [Hfin Hcl].
    destruct repository_sensitivities as [_ Hs].
    rewrite of_Z_opp. rewrite Hs in *. rewrite div_opp, is_finite_opp.
    split; [exact Hfin |].
    rewrite value_opp.
    change (inject_Z (Z.neg p)) with (- inject_Z (Z.pos p))%Q.
    rewrite Qabs_opp.
    match goal with
    | |- (Qabs ?a * _ <= _)%Q =>
        match type of Hcl with
        | (Qabs ?b * _ <= _)%Q =>
            assert (Hopp : (a == - b)%Q) by ring; rewrite Hopp, Qabs_opp
        end
    end.
    exact Hcl.
Qed.

(** X16: on the repository's build (8192.0 LSB/g, 65.5 LSB/dps) and for
    every 16-bit difference d, both conversions give a finite float; the
    accelerometer result times the sensitivity is d exactly (no rounding),
    and the gyroscope result times the sensitivity differs from d by at most
    |d| / 2^24. *)
Theorem conversion_accuracy (d : Z) :
  is_int16 d ->
  let accel := div (of_Z d) (MPU6500_ACCEL_SENS (build := repository_build)) in
  let gyro := div (of_Z d) (MPU6500_GYRO_SENS (build := repository_build)) in
  is_finite accel = true /\
  (value accel * value (MPU6500_ACCEL_SENS (build := repository_build)) == inject_Z d)%Q /\
  is_finite gyro = true /\
  (Qabs (value gyro * value (MPU6500_GYRO_SENS (build := repository_build)) - inject_Z d)
   * inject_Z 16777216 <= Qabs (inject_Z d))%Q.
Proof.
  intros Hd. cbv zeta.
  destruct (accel_exact d Hd) as [Hfa Hea].
  destruct (gyro_close d Hd) as [Hfg Hcg].
  repeat split; assumption.
Qed.

Lemma Qabs_int16 (d : Z) : is_int16 d -> (Qabs (inject_Z d) <= 32768)%Q.
Proof.
  intros [Hlo Hhi]. apply Qabs_Qle_condition. split.
  - change (- (32768))%Q with (inject_Z (-32768)). rewrite <- Zle_Qle. exact Hlo.
  - change 32768%Q with (inject_Z 32768). rewrite <- Zle_Qle. lia.
Qed.

(** X17: on the repository's build both conversions are strictly
    increasing in the 16-bit difference: a larger raw - offset never gives a
    smaller or equal reading. *)
Theorem conversion_strictly_increasing (d1 d2 : Z) :
  is_int16 d1 -> is_int16 d2 -> d1 < d2 ->
  (value (div (of_Z d1) (MPU6500_ACCEL_SENS (build := repository_build)))
   < value (div (of_Z d2) (MPU6500_ACCEL_SENS (build := repository_build))))%Q /\
  (value (div (of_Z d1) (MPU6500_GYRO_SENS (build := repository_build)))
   < value (div (of_Z d2) (MPU6500_GYRO_SENS (build := repository_build))))%Q.
Proof.
  intros H1 H2 Hlt.
  destruct (accel_exact d1 H1) as [_ Ea1]. destruct (accel_exact d2 H2) as [_ Ea2].
  destruct (gyro_close d1 H1) as [_ Cg1]. destruct (gyro_close d2 H2) as [_ Cg2].
  assert (Hpa : (0 < value (MPU6500_ACCEL_SENS (build := repository_build)))%Q)
    by (vm_compute; reflexivity).
  assert (Hpg : (0 < value (MPU6500_GYRO_SENS (build := repository_build)))%Q)
    by (vm_compute; reflexivity).
  assert (Hstep : (inject_Z d1 + 1 <= inject_Z d2)%Q).
  { change 1%Q with (inject_Z 1). rewrite <- inject_Z_plus, <- Zle_Qle. lia. }
  pose proof (Qabs_int16 d1 H1) as B1. pose proof (Qabs_int16 d2 H2) as B2.
  split.
  - apply Qmult_lt_r with (z := value (MPU6500_ACCEL_SENS (build := repository_build)));
      [assumption |].
    rewrite Ea1, Ea2. lra.
  - apply Qmult_lt_r with (z := value (MPU6500_GYRO_SENS (build := repository_build)));
      [assumption |].
    set (p1 := (value (div (of_Z d1) (MPU6500_GYRO_SENS (build := repository_build)))
                * value (MPU6500_GYRO_SENS (build := repository_build)))%Q) in *.
    set (p2 := (value (div (of_Z d2) (MPU6500_GYRO_SENS (build := repository_build)))
                * value (MPU6500_GYRO_SENS (build := repository_build)))%Q) in *.
    pose proof (Qle_Qabs (p1 - inject_Z d1)) as U1.
    pose proof (Qle_Qabs (- (p2 - inject_Z d2))) as U2.
    rewrite Qabs_opp in U2.
    change (inject_Z 16777216) with 16777216%Q in *.
    lra.
Qed.

(** ** Instances of the further properties *)

Ltac by_computation := vm_compute; intuition (discriminate || congruence).

(** X1 on the bytes 12 34 FF FE 80 00. *)
Lemma ReadRaw_values_witness :
  fst (MPU6500_ReadRawAccel (power_on [Script.ok [0x12; 0x34; 0xFF; 0xFE; 0x80; 0x00]]) zero3)
    = (HAL_OK, mkVec3 4660 (-2) (-32768)) /\
  fst (MPU6500_ReadRawGyro (power_on [Script.ok [0x12; 0x34; 0xFF; 0xFE; 0x80; 0x00]]) zero3)
    = (HAL_OK, mkVec3 4660 (-2) (-32768)).
Proof.
  destruct (ReadRaw_values (power_on [Script.ok [0x12; 0x34; 0xFF; 0xFE; 0x80; 0x00]])
              zero3 0x12 0x34 0xFF 0xFE 0x80 0x00 [])
    as (Haccel & Hgyro & _); try (unfold is_uint8; lia).
  split; [exact (Haccel eq_refl) | exact (Hgyro eq_refl)].
Defined.

(** X2 at start-up on the repository build, raw values 8192, -8192, 0. *)
Lemma conversion_with_zero_offsets_witness :
  fst (MPU6500_ReadAccel (build := repository_build)
         (power_on [Script.ok [0x20; 0x00; 0xE0; 0x00; 0x00; 0x00]]) (mkVec3 zero zero zero))
    = (HAL_OK, mkVec3 (of_Z 1) (of_Z (-1)) zero).
Proof.
  destruct (conversion_with_zero_offsets (build := repository_build)
              (power_on [Script.ok [0x20; 0x00; 0xE0; 0x00; 0x00; 0x00]])
              (mkVec3 zero zero zero) 0x20 0x00 0xE0 0x00 0x00 0x00 [])
    as (Haccel & _); try (unfold is_uint8; lia).
  exact (Haccel eq_refl eq_refl).
Defined.

(** X4 with the read answered HAL_BUSY. *)
Lemma read_modify_write_stops_on_failed_read_witness :
  MPU6500_Sleep (power_on [(HAL_BUSY, [0x00]); Script.ok []])
    = (HAL_BUSY, mkWorld [Script.ok []] [EvRead PWR_MGMT_1 1] zero3 zero3).
Proof.
  destruct (read_modify_write_stops_on_failed_read (hal := Script.hal)
              (power_on [(HAL_BUSY, [0x00]); Script.ok []]) HAL_BUSY [0x00] [Script.ok []]
              eq_refl ltac:(discriminate))
    as (Hsleep & _).
  exact Hsleep.
Defined.

(** X5 with the byte 0x01 read: Sleep writes 0x41. *)
Lemma read_modify_write_changes_one_bit_witness :
  MPU6500_Sleep (power_on [Script.ok [0x01]; (HAL_ERROR, [])])
    = (HAL_ERROR,
       mkWorld [] [EvRead PWR_MGMT_1 1; EvWrite PWR_MGMT_1 0x41] zero3 zero3).
Proof.
  destruct (read_modify_write_changes_one_bit (hal := Script.hal)
              (power_on [Script.ok [0x01]; (HAL_ERROR, [])]) 0x01 [(HAL_ERROR, [])]
              eq_refl ltac:(unfold is_uint8; lia))
    as ((Hsleep & _) & _).
  exact Hsleep.
Defined.

(** X6 with the power-management register at 0x41. *)
Lemma power_state_last_call_wins_witness :
  let w := power_on (fun r => if r =? PWR_MGMT_1 then 0x41 else 0) in
  Z.testbit (bus (snd (MPU6500_Sleep w)) PWR_MGMT_1) 6 = true /\
  Z.testbit (bus (snd (MPU6500_WakeUp w)) PWR_MGMT_1) 6 = false.
Proof.
  cbv zeta.
  destruct (power_state_last_call_wins
              (power_on (fun r => if r =? PWR_MGMT_1 then 0x41 else 0))
              ltac:(unfold is_uint8; cbn; lia))
    as (_ & _ & _ & Hs & Hw).
  split; [exact Hs | exact Hw].
Defined.

(** X7 with the power-management register at 0x51. *)
Lemma temperature_bit_independent_witness :
  let w := power_on (fun r => if r =? PWR_MGMT_1 then 0x51 else 0) in
  bus (snd (MPU6500_Sleep (snd (MPU6500_EnableTemperatureSensor w)))) PWR_MGMT_1
  = bus (snd (MPU6500_EnableTemperatureSensor (snd (MPU6500_Sleep w)))) PWR_MGMT_1.
Proof.
  cbv zeta.
  destruct (temperature_bit_independent
              (power_on (fun r => if r =? PWR_MGMT_1 then 0x51 else 0))
              ltac:(unfold is_uint8; cbn; lia))
    as (_ & _ & _ & Hcomm).
  exact (Hcomm PWR_MGMT_1).
Defined.

(** X8 at register 0 of an all-0x55 register file. *)
Lemma writes_touch_one_register_witness :
  let w := power_on (fun _ : Z => 0x55) in
  bus (snd (MPU6500_Sleep w)) 0 = 0x55 /\
  bus (snd (MPU6500_DisableGyro w)) 0 = 0x55 /\
  bus (snd (MPU6500_DisableDataReadyInterrupts w)) 0 = 0x55.
Proof.
  cbv zeta.
  destruct (writes_touch_one_register (power_on (fun _ : Z => 0x55)) 0)
    as (Hpwr & Hgyro & _ & Hint).
  destruct (Hpwr ltac:(discriminate)) as (Hs & _).
  destruct (Hint ltac:(discriminate)) as (_ & Hd).
  split; [exact Hs | split; [exact (Hgyro ltac:(discriminate)) | exact Hd]].
Defined.

(** X10 with the power-management register read answering 0x51. *)
Lemma Init_succeeds_witness :
  MPU6500_Init (build := repository_build)
    (power_on (map Script.ok [[]; []; []; []; []; []; [0x51]; []; []] ++ [Script.ok [0x70]]))
  = (HAL_OK,
     mkWorld [Script.ok [0x70]]
             [EvWrite PWR_MGMT_1 0x80; EvDelay 100; EvWrite PWR_MGMT_1 0x01;
              EvWrite ACCEL_CONFIG 0x08; EvWrite ACCEL_CONFIG_2 0x04;
              EvWrite GYRO_CONFIG 0x08; EvWrite CONFIG 0x04;
              EvRead PWR_MGMT_1 1; EvWrite PWR_MGMT_1 0x41; EvWrite INT_PIN_CFG 0xB0]
             zero3 zero3).
Proof.
  exact (Init_succeeds (build := repository_build)
           (power_on (map Script.ok [[]; []; []; []; []; []; [0x51]; []; []]
                        ++ [Script.ok [0x70]]))
           [[]; []; []; []; []; []; [0x51]; []; []] [Script.ok [0x70]] eq_refl eq_refl).
Defined.

(** X12 with two samples, (10, 20, 8292) then (30, 40, 8492) on the
    accelerometer and (-1, 3, 5) twice on the gyroscope. *)
Lemma calibration_offsets_witness :
  let pairs := [([0; 10; 0; 20; 0x20; 0x64], [0xFF; 0xFF; 0; 3; 0; 5]);
                ([0; 30; 0; 40; 0x21; 0x2C], [0xFF; 0xFF; 0; 3; 0; 5])] in
  let w := power_on (Script.ok [0x41] :: (HAL_OK, []) :: sample_script pairs ++ []) in
  accel_offset (snd (MPU6500_InitOffsetCalibration (build := repository_build) w 2))
    = mkVec3 20 30 200 /\
  gyro_offset (snd (MPU6500_InitOffsetCalibration (build := repository_build) w 2))
    = mkVec3 (-1) 3 5.
Proof.
  cbv zeta.
  rewrite (calibration_offsets (build := repository_build)
             (power_on (Script.ok [0x41] :: (HAL_OK, []) ::
                        sample_script
                          [([0; 10; 0; 20; 0x20; 0x64], [0xFF; 0xFF; 0; 3; 0; 5]);
                           ([0; 30; 0; 40; 0x21; 0x2C], [0xFF; 0xFF; 0; 3; 0; 5])] ++ []))
             2 [0x41] []
             [([0; 10; 0; 20; 0x20; 0x64], [0xFF; 0xFF; 0; 3; 0; 5]);
              ([0; 30; 0; 40; 0x21; 0x2C], [0xFF; 0xFF; 0; 3; 0; 5])] []
             ltac:(lia) eq_refl eq_refl).
  split; reflexivity.
Defined.

(** X13 at the sums 6 and -3 over three samples. *)
Lemma mean16_unsigned_division_witness :
  mean16 6 3 = 2 /\ mean16 (-3) 3 = 21844.
Proof.
  destruct (mean16_unsigned_division 6 3 ltac:(lia) ltac:(lia)) as [Hpos _].
  destruct (mean16_unsigned_division (-3) 3 ltac:(lia) ltac:(lia)) as [_ Hneg].
  split.
  - exact (Hpos ltac:(lia) ltac:(by_computation)).
  - exact (Hneg ltac:(lia)).
Defined.

(** X14 on a calibration whose first raw read fails. *)
Lemma calibration_keeps_offsets_int16_witness :
  let w := mkWorld [Script.ok [0x01]; Script.ok []; (HAL_ERROR, [])] []
                   (mkVec3 1 2 3) (mkVec3 (-4) (-5) (-6)) in
  offsets_int16 (snd (MPU6500_InitOffsetCalibration (build := repository_build) w 4)).
Proof.
  cbv zeta.
  destruct (calibration_keeps_offsets_int16 (build := repository_build)
              (mkWorld [Script.ok [0x01]; Script.ok []; (HAL_ERROR, [])] []
                       (mkVec3 1 2 3) (mkVec3 (-4) (-5) (-6))) 4)
    as [_ Hkeep].
  apply Hkeep. unfold offsets_int16, is_int16. cbn. lia.
Defined.

(** X15 on a register file holding the raw values (5, 7, 8200) and
    (1, 2, 3), three samples, repository build. *)
Lemma calibrate_then_read_witness :
  let regs := fun r : Z =>
    if r =? 0x3C then 5 else if r =? 0x3E then 7
    else if r =? 0x3F then 0x20 else if r =? 0x40 then 0x08
    else if r =? 0x44 then 1 else if r =? 0x46 then 2 else if r =? 0x48 then 3
    else 0 in
  let calibrated :=
    snd (MPU6500_InitOffsetCalibration (build := repository_build) (power_on regs) 3) in
  fst (MPU6500_ReadAccel (build := repository_build) calibrated (mkVec3 zero zero zero))
    = (HAL_OK, mkVec3 zero zero one) /\
  fst (MPU6500_ReadGyro (build := repository_build) calibrated (mkVec3 zero zero zero))
    = (HAL_OK, mkVec3 zero zero zero).
Proof.
  cbv zeta.
  destruct (calibrate_then_read (build := repository_build)
              (power_on (fun r : Z =>
                 if r =? 0x3C then 5 else if r =? 0x3E then 7
                 else if r =? 0x3F then 0x20 else if r =? 0x40 then 0x08
                 else if r =? 0x44 then 1 else if r =? 0x46 then 2
                 else if r =? 0x48 then 3 else 0))
              3 (mkVec3 zero zero zero)
              ltac:(by_computation) ltac:(lia)
              ltac:(by_computation) ltac:(by_computation) ltac:(by_computation)
              ltac:(by_computation) ltac:(by_computation) ltac:(by_computation))
    as (_ & _ & _ & Haccel & Hgyro).
  split; [exact Haccel | exact Hgyro].
Defined.

(** X16 at the difference 12345 on the repository build. *)
Lemma conversion_accuracy_witness :
  (value (div (of_Z 12345) (MPU6500_ACCEL_SENS (build := repository_build)))
   * value (MPU6500_ACCEL_SENS (build := repository_build)) == inject_Z 12345)%Q.
Proof.
  destruct (conversion_accuracy 12345 ltac:(unfold is_int16; lia))
    as (_ & Hexact & _).
  exact Hexact.
Defined.

(** X17 at the differences -1 and 1 on the repository build. *)
Lemma conversion_strictly_increasing_witness :
  (value (div (of_Z (-1)) (MPU6500_GYRO_SENS (build := repository_build)))
   < value (div (of_Z 1) (MPU6500_GYRO_SENS (build := repository_build))))%Q.
Proof.
  destruct (conversion_strictly_increasing (-1) 1
              ltac:(unfold is_int16; lia) ltac:(unfold is_int16; lia) ltac:(lia))
    as (_ & Hgyro).
  exact Hgyro.
Defined.

(** The in-range conversions on offsets (100, -100, 0) and the bytes
    20 00 E0 00 00 00. *)
Lemma ReadAccel_conversion_in_range_witness :
  fst (MPU6500_ReadAccel (build := repository_build)
         (mkWorld [Script.ok [0x20; 0x00; 0xE0; 0x00; 0x00; 0x00]] []
                  (mkVec3 100 (-100) 0) zero3)
         (mkVec3 zero zero zero))
    = (HAL_OK,
       mkVec3 (div (of_Z 8092) MPU6500_ACCEL_SENS_4G)
              (div (of_Z (-8092)) MPU6500_ACCEL_SENS_4G)
              (div (of_Z 0) MPU6500_ACCEL_SENS_4G)).
Proof.
  exact (ReadAccel_conversion_in_range (hal := Script.hal) (build := repository_build)
           (mkWorld [Script.ok [0x20; 0x00; 0xE0; 0x00; 0x00; 0x00]] []
                    (mkVec3 100 (-100) 0) zero3)
           (mkVec3 zero zero zero) 0x20 0x00 0xE0 0x00 0x00 0x00 [] eq_refl
           ltac:(unfold is_uint8; lia) ltac:(unfold is_uint8; lia)
           ltac:(unfold is_uint8; lia) ltac:(unfold is_uint8; lia)
           ltac:(unfold is_uint8; lia) ltac:(unfold is_uint8; lia)
           ltac:(by_computation) ltac:(by_computation) ltac:(by_computation)).
Defined.

Lemma ReadGyro_conversion_in_range_witness :
  fst (MPU6500_ReadGyro (build := repository_build)
         (mkWorld [Script.ok [0x20; 0x00; 0xE0; 0x00; 0x00; 0x00]] []
                  zero3 (mkVec3 100 (-100) 0))
         (mkVec3 zero zero zero))
    = (HAL_OK,
       mkVec3 (div (of_Z 8092) MPU6500_GYRO_SENS_500DPS)
              (div (of_Z (-8092)) MPU6500_GYRO_SENS_500DPS)
              (div (of_Z 0) MPU6500_GYRO_SENS_500DPS)).
Proof.
  exact (ReadGyro_conversion_in_range (hal := Script.hal) (build := repository_build)
           (mkWorld [Script.ok [0x20; 0x00; 0xE0; 0x00; 0x00; 0x00]] []
                    zero3 (mkVec3 100 (-100) 0))
           (mkVec3 zero zero zero) 0x20 0x00 0xE0 0x00 0x00 0x00 [] eq_refl
           ltac:(unfold is_uint8; lia) ltac:(unfold is_uint8; lia)
           ltac:(unfold is_uint8; lia) ltac:(unfold is_uint8; lia)
           ltac:(unfold is_uint8; lia) ltac:(unfold is_uint8; lia)
           ltac:(by_computation) ltac:(by_computation) ltac:(by_computation)).
Defined.

(** A calibration stopped by a failing wake-up write keeps the offsets. *)
Lemma calibration_failure_keeps_offsets_witness :
  let w := mkWorld [Script.ok [0x41]; (HAL_TIMEOUT, [])] []
                   (mkVec3 1 2 3) (mkVec3 4 5 6) in
  same_offsets w (snd (MPU6500_InitOffsetCalibration (build := repository_build) w 8)).
Proof.
  cbv zeta.
  apply (calibration_failure_keeps_offsets (build := repository_build)
           (mkWorld [Script.ok [0x41]; (HAL_TIMEOUT, [])] []
                    (mkVec3 1 2 3) (mkVec3 4 5 6)) 8).
  vm_compute. discriminate.
Defined.

(** X18 on the pairs (12, 34) and (12, 35), and on the value -2. *)
Lemma byte_pair_decoding_bijective_witness :
  (0x12 = 0x12 /\ 0x34 = 0x34) /\
  exists hi lo, is_uint8 hi /\ is_uint8 lo /\ be16 [hi; lo] 0 = -2.
Proof.
  destruct byte_pair_decoding_bijective as [Hinj Hsurj].
  split.
  - apply (Hinj 0x12 0x34 0x12 0x34); first [reflexivity | unfold is_uint8; lia].
  - apply Hsurj. unfold is_int16. lia.
Defined.

(** X19 on two states with the same offsets and different logs. *)
Lemma PrintOffsets_faithful_witness :
  snd (MPU6500_PrintOffsets (mkWorld tt [] (mkVec3 5 (-7) 0) (mkVec3 1 2 3)))
  = snd (MPU6500_PrintOffsets (mkWorld tt [EvDelay 5] (mkVec3 5 (-7) 0) (mkVec3 1 2 3))).
Proof.
  destruct (PrintOffsets_faithful (mkWorld tt [] (mkVec3 5 (-7) 0) (mkVec3 1 2 3))
              (mkWorld tt [EvDelay 5] (mkVec3 5 (-7) 0) (mkVec3 1 2 3))) as [_ [_ Hback]].
  apply Hback. split; reflexivity.
Defined.
